(** * DesktopBrowserWindow: navigation, load, title and close policies

    A shallow embedding of [src/node/desktop/src/main/desktop-browser-window.ts].

    The class wires event handlers onto a host window.  Each handler is
    embedded as a computation in a small monad that threads the wrapper
    object ([this]), records the calls made on the host and on the
    collaborators, and carries JavaScript exceptions.  The collaborators that
    live outside the file (the runtime's [URL] class, [isSafeHost],
    [appState], the script-injection promise, ...) are the fields of a record
    the handlers are parameterised by. *)

From Stdlib Require Import String Ascii List Bool Arith Lia.
Import ListNotations.
Open Scope string_scope.

Set Implicit Arguments.

(** ** JavaScript values used by the class *)

(** A thrown or rejected value; only its message is ever inspected (logged). *)
Record Error := { message : string }.

(** The two fields of the runtime's [URL] object the handler reads:
    [hostname] (no port) and [host] (with the port when there is one). *)
Record URL := { hostname : string; host : string }.

(** How an expression completes: normally with a value, or by throwing. *)
Inductive Completion (A : Type) : Type :=
| Normal (a : A)
| Throw (e : Error).
Arguments Throw {A} e.

(** A settled promise; the fulfilment value is never used by the class. *)
Inductive Promise : Type :=
| Resolved
| Rejected (reason : Error).

(** Opaque handles of host objects. *)
Record WebContents := { webContentsId : nat }.
Record BrowserWindowHandle := { windowId : nat }.

(** [details.disposition] of a window-open request. *)
Inductive Disposition : Type :=
| default_disposition
| foreground_tab
| background_tab
| new_window
| save_to_disk
| other_disposition.

Record HandlerDetails := { details_url : string; disposition : Disposition }.

(** What a window-open handler returns to the host: [{ action: 'deny' }], or
    an allowing answer with the overriding window options behind a tag. *)
Inductive WindowOpenHandlerResponse : Type :=
| action_deny
| action_allow (overrideOptions : nat).

Record ToolbarButton := { tooltip : string; iconPath : string; onClick : string }.
Record ToolbarData := { buttons : list ToolbarButton }.

(** ** WindowConstructorOptions

    Optional fields are [option]s; [parent] is a weak reference, kept as the
    identifier of the parent wrapper. *)
Record WindowConstructorOptions := {
  showToolbar : option bool;
  adjustTitle : option bool;
  autohideMenu : option bool;
  name : string;
  baseUrl : option string;
  parent : option nat;
  opener : option WebContents;
  allowExternalNavigate : option bool;
  addApiKeys : option (list string);
  existingWindow : option BrowserWindowHandle
}.

(** [a ?? b] *)
Definition nullish {A} (a : option A) (b : A) : A :=
  match a with Some v => v | None => b end.

(** Truthiness of an optional boolean, string and object, as tested by [if],
    [!] and [&&]: [undefined], [false] and the empty string are falsy. *)
Definition truthy_bool (b : option bool) : bool :=
  match b with Some true => true | _ => false end.

Definition truthy_string (s : option string) : bool :=
  match s with
  | Some EmptyString => false
  | Some (String _ _) => true
  | None => false
  end.

Definition truthy_object {A} (o : option A) : bool :=
  match o with Some _ => true | None => false end.

(** [hay.includes(needle)] *)
Fixpoint includes (needle hay : string) : bool :=
  if prefix needle hay then true
  else match hay with
       | EmptyString => false
       | String _ rest => includes needle rest
       end.

(** ** The wrapper object

    [window_title] is the chrome title of the owned host window;
    [close_listener] tells whether the constructor attached the ['close']
    listener to it. *)
Record DesktopBrowserWindow := {
  options : WindowConstructorOptions;
  failLoad : bool;
  window_title : string;
  close_listener : bool
}.

Definition set_failLoad (b : bool) (this : DesktopBrowserWindow) : DesktopBrowserWindow :=
  {| options := options this; failLoad := b;
     window_title := window_title this; close_listener := close_listener this |}.

Definition set_window_title (t : string) (this : DesktopBrowserWindow) : DesktopBrowserWindow :=
  {| options := options this; failLoad := failLoad this;
     window_title := t; close_listener := close_listener this |}.

(** ** Calls observed on the host and on the collaborators

    [enter_finishLoading] is a ghost event: it records that the finish routine
    was entered and with which argument. *)
Inductive Call : Type :=
| event_preventDefault
| shell_openExternal (url : string)
| logger_logError (err : Error)
| console_error (msg : string) (err : Error)
| window_setTitle (title : string)
| webContents_executeJavaScript (cmd : string)
| toolbarManager_createAndShowToolbar (data : ToolbarData)
| appState_windowOpening
| enter_finishLoading (succeeded : bool).

(** ** Collaborators outside the file *)
Record Collaborators := {
  (** [new URL(url)]: the parsed object, or the [TypeError] it throws *)
  URL_new : string -> Completion URL;
  (** [isSafeHost] of [./utils] *)
  isSafeHost : string -> bool;
  (** how the promise of [executeJavaScript(webContents, cmd)] settles *)
  executeJavaScript_settles : string -> Promise;
  (** how the promise of [createAndShowToolbar] settles *)
  createAndShowToolbar_settles : ToolbarData -> Promise;
  (** [this.window.webContents.getTitle()] *)
  webContents_getTitle : string;
  (** what [appState().windowOpening()] answers *)
  windowOpening_answer : WindowOpenHandlerResponse;
  (** [path.join] and [__dirname] *)
  path_join : list string -> string;
  dirname : string
}.

(** ** The handler monad

    A computation runs on the wrapper object and yields a completion, the
    updated object, the calls it made synchronously ([calls]) and the calls
    made by promise callbacks ([settled]), which the event loop runs after
    the handler has returned. *)
Record Result (A : Type) := {
  completion : Completion A;
  final : DesktopBrowserWindow;
  calls : list Call;
  settled : list Call
}.

Definition M (A : Type) : Type := DesktopBrowserWindow -> Result A.

Definition ret {A} (a : A) : M A :=
  fun this => {| completion := Normal a; final := this; calls := []; settled := [] |}.

Definition bind {A B} (m : M A) (k : A -> M B) : M B :=
  fun this =>
    match m this with
    | {| completion := Normal a; final := this1; calls := c1; settled := s1 |} =>
        match k a this1 with
        | {| completion := c; final := this2; calls := c2; settled := s2 |} =>
            {| completion := c; final := this2;
               calls := c1 ++ c2; settled := s1 ++ s2 |}
        end
    | {| completion := Throw e; final := this1; calls := c1; settled := s1 |} =>
        {| completion := Throw e; final := this1; calls := c1; settled := s1 |}
    end.

Declare Scope js_scope.
Delimit Scope js_scope with js.
Notation "x <- m ;; k" := (bind m (fun x => k))
  (at level 61, m at next level, right associativity) : js_scope.
Notation "m ;; k" := (bind m (fun _ => k))
  (at level 61, right associativity) : js_scope.
Open Scope js_scope.

(** [try { body } catch (err) { handler err }] *)
Definition try_catch {A} (body : M A) (handler : Error -> M A) : M A :=
  fun this =>
    match body this with
    | {| completion := Normal a; final := this1; calls := c1; settled := s1 |} =>
        {| completion := Normal a; final := this1; calls := c1; settled := s1 |}
    | {| completion := Throw e; final := this1; calls := c1; settled := s1 |} =>
        match handler e this1 with
        | {| completion := c; final := this2; calls := c2; settled := s2 |} =>
            {| completion := c; final := this2;
               calls := c1 ++ c2; settled := s1 ++ s2 |}
        end
    end.

(** Lift a completion computed by a collaborator. *)
Definition complete {A} (c : Completion A) : M A :=
  fun this => {| completion := c; final := this; calls := []; settled := [] |}.

Definition call (c : Call) : M unit :=
  fun this => {| completion := Normal tt; final := this; calls := [c]; settled := [] |}.

Definition this_ : M DesktopBrowserWindow :=
  fun this => {| completion := Normal this; final := this; calls := []; settled := [] |}.

Definition assign (f : DesktopBrowserWindow -> DesktopBrowserWindow) : M unit :=
  fun this => {| completion := Normal tt; final := f this; calls := []; settled := [] |}.

(** [promise.catch(onRejected)] where the callback makes one call: nothing is
    thrown into the handler, a rejection runs the callback later. *)
Definition promise_catch (p : Promise) (onRejected : Error -> Call) : M unit :=
  fun this =>
    {| completion := Normal tt; final := this; calls := [];
       settled := match p with
                  | Resolved => []
                  | Rejected reason => [onRejected reason]
                  end |}.

(** Everything a handler caused, in the order it happened. *)
Definition trace {A} (r : Result A) : list Call := calls r ++ settled r.

(** ** The class *)

Definition nl : string := String "010"%char EmptyString.

Definition Disposition_eqb (a b : Disposition) : bool :=
  match a, b with
  | default_disposition, default_disposition
  | foreground_tab, foreground_tab
  | background_tab, background_tab
  | new_window, new_window
  | save_to_disk, save_to_disk
  | other_disposition, other_disposition => true
  | _, _ => false
  end.

(** The scripts injected into the page (template literals of the source). *)
Definition unregister_via_window_opener_cmd (windowName : string) : string :=
  "if (window.opener && window.opener.unregisterDesktopChildWindow)" ++ nl ++
  "           window.opener.unregisterDesktopChildWindow('" ++ windowName ++ "');".

Definition unregister_via_window_cmd (windowName : string) : string :=
  "if (window.unregisterDesktopChildWindow)" ++ nl ++
  "           window.unregisterDesktopChildWindow('" ++ windowName ++ "');".

Definition register_cmd (windowName : string) : string :=
  "if (window.opener && window.opener.registerDesktopChildWindow)" ++ nl ++
  "         window.opener.registerDesktopChildWindow('" ++ windowName ++ "', window);".

Definition toolbar_error_msg : string :=
  "Error when trying to add Secondary Window toolbar".

Section Class.

Variable env : Collaborators.

(** [new URL(url)] *)
Definition new_URL (url : string) : M URL := complete (URL_new env url).

(** [this.window.setTitle(title)] *)
Definition setTitle (title : string) : M unit :=
  call (window_setTitle title) ;;
  assign (set_window_title title).

(** [executeJavaScript(cmd)]: the injection is issued and its promise
    handed back. *)
Definition executeJavaScript (cmd : string) : M Promise :=
  call (webContents_executeJavaScript cmd) ;;
  ret (executeJavaScript_settles env cmd).

(** The constructor: defaults for the optional flags, [failLoad = false],
    and the ['close'] listener attached unless the name includes
    ['satellite'].  [host_title] is the title the host window starts with.
    The host calls made while the window is created (insertCSS, locale
    cookies) are left out. *)
Definition constructor (opts : WindowConstructorOptions) (host_title : string)
  : DesktopBrowserWindow :=
  {| options :=
       {| showToolbar := Some (nullish (showToolbar opts) false);
          adjustTitle := Some (nullish (adjustTitle opts) false);
          autohideMenu := Some (nullish (autohideMenu opts) false);
          name := name opts;
          baseUrl := baseUrl opts;
          parent := parent opts;
          opener := opener opts;
          allowExternalNavigate := Some (nullish (allowExternalNavigate opts) false);
          addApiKeys := addApiKeys opts;
          existingWindow := existingWindow opts |};
     failLoad := false;
     window_title := host_title;
     close_listener := negb (includes "satellite" (name opts)) |}.

(** Callback given to [setWindowOpenHandler]. *)
Definition windowOpenHandler (details : HandlerDetails) : M WindowOpenHandlerResponse :=
  this <- this_ ;;
  if truthy_string (baseUrl (options this)) &&
     (Disposition_eqb (disposition details) foreground_tab ||
      Disposition_eqb (disposition details) background_tab)
  then
    call (shell_openExternal (details_url details)) ;;
    ret action_deny
  else
    call appState_windowOpening ;;
    ret (windowOpening_answer env).

(** Listener of ['will-navigate'].  The first [try] yields [None] when its
    [catch] branch returned from the listener. *)
Definition on_will_navigate (url : string) : M unit :=
  parsed <- try_catch
              (targetUrl <- new_URL url ;; ret (Some targetUrl))
              (fun err =>
                 call (logger_logError err) ;;
                 call event_preventDefault ;;
                 ret None) ;;
  match parsed with
  | None => ret tt
  | Some targetUrl =>
      let host_ := hostname targetUrl in
      let isLocal :=
        (host_ =? "localhost") || (host_ =? "127.0.0.1") || (host_ =? "::1") in
      if isLocal then ret tt
      else
        this <- this_ ;;
        if negb (truthy_bool (allowExternalNavigate (options this))) then
          try_catch
            (targetUrl' <- new_URL url ;;
             if negb (isSafeHost env (host targetUrl')) then
               call event_preventDefault ;;
               call (shell_openExternal url)
             else ret tt)
            (fun err =>
               call (logger_logError err) ;;
               call event_preventDefault)
        else ret tt
  end.

Definition adjustWindowTitle (title : string) (explicitSet : bool) : M unit :=
  this <- this_ ;;
  if truthy_bool (adjustTitle (options this)) && explicitSet
  then setTitle title
  else ret tt.

Definition syncWindowTitle : M unit :=
  this <- this_ ;;
  if truthy_bool (adjustTitle (options this))
  then setTitle (webContents_getTitle env)
  else ret tt.

Definition finishLoading (succeeded : bool) : M unit :=
  call (enter_finishLoading succeeded) ;;
  if succeeded then
    syncWindowTitle ;;
    this <- this_ ;;
    p <- executeJavaScript (register_cmd (name (options this))) ;;
    promise_catch p logger_logError
  else ret tt.

Definition toolbarData : ToolbarData :=
  {| buttons :=
       [ {| tooltip := "Go Back";
            iconPath := path_join env [dirname env; "assets"; "img"; "back.png"];
            onClick := "()=> {" ++ nl ++
                       "                history.back();" ++ nl ++
                       "              }" |};
         {| tooltip := "Go Forward";
            iconPath := path_join env [dirname env; "assets"; "img"; "forward.png"];
            onClick := "()=> {" ++ nl ++
                       "                history.forward();" ++ nl ++
                       "              }" |};
         {| tooltip := "Refresh Page";
            iconPath := path_join env [dirname env; "assets"; "img"; "reload.png"];
            onClick := "()=> {" ++ nl ++
                       "                window.location.reload();" ++ nl ++
                       "              }" |} ] |}.

(** Listener of ['did-finish-load']. *)
Definition on_did_finish_load : M unit :=
  this <- this_ ;;
  (if truthy_bool (showToolbar (options this)) then
     call (toolbarManager_createAndShowToolbar toolbarData) ;;
     promise_catch (createAndShowToolbar_settles env toolbarData)
                   (console_error toolbar_error_msg)
   else ret tt) ;;
  this <- this_ ;;
  if negb (failLoad this) then finishLoading true
  else assign (set_failLoad false).

(** Listener of ['did-fail-load']. *)
Definition on_did_fail_load : M unit :=
  assign (set_failLoad true) ;;
  finishLoading false.

Definition closeEvent : M unit :=
  this <- this_ ;;
  if negb (truthy_object (opener (options this))) then
    p <- executeJavaScript (unregister_via_window_opener_cmd (name (options this))) ;;
    promise_catch p logger_logError
  else
    p <- executeJavaScript (unregister_via_window_cmd (name (options this))) ;;
    promise_catch p logger_logError.

(** ** Events delivered by the host *)
Inductive Event : Type :=
| will_navigate (url : string)
| page_title_updated (title : string) (explicitSet : bool)
| did_finish_load
| did_fail_load
| close.

(** The listener the constructor attached for each event; ['close'] has one
    only when [close_listener] is set. *)
Definition listener (e : Event) : M unit :=
  match e with
  | will_navigate url => on_will_navigate url
  | page_title_updated title explicitSet => adjustWindowTitle title explicitSet
  | did_finish_load => on_did_finish_load
  | did_fail_load => on_did_fail_load
  | close =>
      this <- this_ ;;
      if close_listener this then closeEvent else ret tt
  end.

Definition deliver (this : DesktopBrowserWindow) (e : Event) : Result unit :=
  listener e this.

(** The wrapper after a sequence of events, one listener run to completion
    before the next event. *)
Fixpoint after (events : list Event) (this : DesktopBrowserWindow)
  : DesktopBrowserWindow :=
  match events with
  | [] => this
  | e :: rest => after rest (final (deliver this e))
  end.

(** Everything the listeners caused while the events were delivered. *)
Fixpoint history (events : list Event) (this : DesktopBrowserWindow) : list Call :=
  match events with
  | [] => []
  | e :: rest =>
      trace (deliver this e) ++ history rest (final (deliver this e))
  end.

End Class.

(** Calls that open the external browser, create the toolbar. *)
Definition is_openExternal (c : Call) : bool :=
  match c with shell_openExternal _ => true | _ => false end.

Definition is_createAndShowToolbar (c : Call) : bool :=
  match c with toolbarManager_createAndShowToolbar _ => true | _ => false end.

(** The arguments of the entries into [finishLoading], in order. *)
Fixpoint finish_calls (t : list Call) : list bool :=
  match t with
  | [] => []
  | enter_finishLoading b :: rest => b :: finish_calls rest
  | _ :: rest => finish_calls rest
  end.

(** ** A concrete set of collaborators, to run the listeners on examples

    [sample_URL_new] tabulates the runtime's [URL] on a few addresses and
    rejects every other string; [sample_isSafeHost] accepts one video host. *)
Definition sample_URL_new (url : string) : Completion URL :=
  if url =? "http://localhost:8787/" then
    Normal {| hostname := "localhost"; host := "localhost:8787" |}
  else if url =? "http://127.0.0.1:8787/help/" then
    Normal {| hostname := "127.0.0.1"; host := "127.0.0.1:8787" |}
  else if url =? "https://example.com/page" then
    Normal {| hostname := "example.com"; host := "example.com" |}
  else if url =? "https://www.youtube.com/embed/x" then
    Normal {| hostname := "www.youtube.com"; host := "www.youtube.com" |}
  else Throw {| message := "Invalid URL" |}.

Definition sample_isSafeHost (h : string) : bool := h =? "www.youtube.com".

Definition sample_path_join (parts : list string) : string := String.concat "/" parts.

(** Script injection and toolbar creation succeed. *)
Definition sample_env : Collaborators :=
  {| URL_new := sample_URL_new;
     isSafeHost := sample_isSafeHost;
     executeJavaScript_settles := fun _ => Resolved;
     createAndShowToolbar_settles := fun _ => Resolved;
     webContents_getTitle := "RStudio";
     windowOpening_answer := action_allow 0;
     path_join := sample_path_join;
     dirname := "/app" |}.

(** Script injection and toolbar creation are rejected. *)
Definition failing_env : Collaborators :=
  {| URL_new := sample_URL_new;
     isSafeHost := sample_isSafeHost;
     executeJavaScript_settles := fun _ => Rejected {| message := "Script failed to execute" |};
     createAndShowToolbar_settles := fun _ => Rejected {| message := "no toolbar" |};
     webContents_getTitle := "RStudio";
     windowOpening_answer := action_allow 0;
     path_join := sample_path_join;
     dirname := "/app" |}.

Definition sample_options (windowName : string) : WindowConstructorOptions :=
  {| showToolbar := None;
     adjustTitle := None;
     autohideMenu := None;
     name := windowName;
     baseUrl := None;
     parent := None;
     opener := None;
     allowExternalNavigate := None;
     addApiKeys := None;
     existingWindow := None |}.

Definition with_baseUrl (b : option string) (o : WindowConstructorOptions)
  : WindowConstructorOptions :=
  {| showToolbar := showToolbar o; adjustTitle := adjustTitle o;
     autohideMenu := autohideMenu o; name := name o; baseUrl := b;
     parent := parent o; opener := opener o;
     allowExternalNavigate := allowExternalNavigate o;
     addApiKeys := addApiKeys o; existingWindow := existingWindow o |}.

Definition with_opener (w : option WebContents) (o : WindowConstructorOptions)
  : WindowConstructorOptions :=
  {| showToolbar := showToolbar o; adjustTitle := adjustTitle o;
     autohideMenu := autohideMenu o; name := name o; baseUrl := baseUrl o;
     parent := parent o; opener := w;
     allowExternalNavigate := allowExternalNavigate o;
     addApiKeys := addApiKeys o; existingWindow := existingWindow o |}.

Definition with_flags (toolbar title external : option bool) (o : WindowConstructorOptions)
  : WindowConstructorOptions :=
  {| showToolbar := toolbar; adjustTitle := title;
     autohideMenu := autohideMenu o; name := name o; baseUrl := baseUrl o;
     parent := parent o; opener := opener o;
     allowExternalNavigate := external;
     addApiKeys := addApiKeys o; existingWindow := existingWindow o |}.

(** ** Properties used by the statements below *)

(** The name carries the satellite marker. *)
Definition contains_satellite (windowName : string) : Prop :=
  exists pre post, windowName = pre ++ "satellite" ++ post.

(** The hostname is one of the three loopback spellings the listener tests. *)
Definition local_hostname (h : string) : Prop :=
  h = "localhost" \/ h = "127.0.0.1" \/ h = "::1".

(** The disposition is one of the two tab dispositions. *)
Definition tab_disposition (d : Disposition) : Prop :=
  d = foreground_tab \/ d = background_tab.

(** The reading of the new-window rule in which any present base URL counts
    as configured. *)
Definition tab_request_with_any_baseUrl_opens_externally : Prop :=
  forall (env : Collaborators) (this : DesktopBrowserWindow) (details : HandlerDetails),
    tab_disposition (disposition details) ->
    baseUrl (options this) <> None ->
    let r := windowOpenHandler env details this in
    trace r = [shell_openExternal (details_url details)] /\
    completion r = Normal action_deny.

(** The test the navigation listener makes on the hostname ([isLocal]). *)
Definition isLocal_test (h : string) : bool :=
  (h =? "localhost") || (h =? "127.0.0.1") || (h =? "::1").

(** A call that injects one of the two unregister scripts for some name. *)
Definition is_unregister_injection (c : Call) : Prop :=
  exists windowName,
    c = webContents_executeJavaScript (unregister_via_window_opener_cmd windowName) \/
    c = webContents_executeJavaScript (unregister_via_window_cmd windowName).

(** The injected scripts and the toolbar description stay folded when a
    listener is evaluated. *)
Arguments unregister_via_window_opener_cmd : simpl never.
Arguments unregister_via_window_cmd : simpl never.
Arguments register_cmd : simpl never.
Arguments toolbarData : simpl never.
Arguments toolbar_error_msg : simpl never.

(** Evaluate a listener down to the operations of the monad. *)
Ltac run_listener :=
  unfold deliver, listener, on_did_finish_load, on_did_fail_load, closeEvent,
    adjustWindowTitle, finishLoading, syncWindowTitle, windowOpenHandler,
    executeJavaScript, setTitle, promise_catch, assign, call, ret, bind, this_, trace;
  cbn.

(** ** Further members of the class *)

(** [static WINDOW_DESTROYED], [static CLOSE_WINDOW_SHORTCUT] *)
Definition WINDOW_DESTROYED : string := "desktop-browser-window_destroyed".
Definition CLOSE_WINDOW_SHORTCUT : string := "desktop-browser-close_window_shortcut".

(** The two fields of [Electron.Input] that [keyPressEvent] reads. *)
Record Input := { meta : bool; key : string }.

(** The [apiKeys] array of the constructor:
    [[['--api-keys=desktopInfo', ...(addApiKeys ?? [])].join('|')]]. *)
Definition apiKeys (opts : WindowConstructorOptions) : list string :=
  [String.concat "|" ("--api-keys=desktopInfo" :: nullish (addApiKeys opts) [])].

Definition dquote : string := String "034"%char EmptyString.

(** The script of [avoidMoveCursorIfNecessary]. *)
Definition avoid_move_cursor_cmd : string :=
  "document.body.className = document.body.className + " ++
  dquote ++ " avoid-move-cursor" ++ dquote.

Section PlatformMembers.

Variable env : Collaborators.

(** [process.platform] and the runtime's [String.prototype.toLowerCase]. *)
Variable platform : string.
Variable toLowerCase : string -> string.

Definition avoidMoveCursorIfNecessary : M unit :=
  if platform =? "darwin" then
    p <- executeJavaScript env avoid_move_cursor_cmd ;;
    promise_catch p logger_logError
  else ret tt.

(** [keyPressEvent]: the signals it emits on the wrapper's own emitter, in
    order.  It makes no call on the host and never touches [event]. *)
Definition keyPressEvent (input : Input) : list string :=
  if platform =? "darwin" then
    if meta input && (toLowerCase (key input) =? "w")
    then [CLOSE_WINDOW_SHORTCUT]
    else []
  else [].

End PlatformMembers.

(** Lower-casing of the ASCII letters, for the examples. *)
Definition ascii_toLowerCase (c : ascii) : ascii :=
  let n := nat_of_ascii c in
  if (Nat.leb 65 n && Nat.leb n 90)%bool then ascii_of_nat (n + 32) else c.

Fixpoint sample_toLowerCase (s : string) : string :=
  match s with
  | EmptyString => EmptyString
  | String c rest => String (ascii_toLowerCase c) (sample_toLowerCase rest)
  end.

(** ** Reading a sequence of events *)

Definition is_will_navigate (e : Event) : bool :=
  match e with will_navigate _ => true | _ => false end.

Definition is_did_fail_load (e : Event) : bool :=
  match e with did_fail_load => true | _ => false end.

Definition is_close (e : Event) : bool :=
  match e with close => true | _ => false end.

(** Whether the most recent load event of the sequence is a failure;
    [pending] answers for the events before it. *)
Fixpoint last_load_failed (events : list Event) (pending : bool) : bool :=
  match events with
  | [] => pending
  | did_fail_load :: rest => last_load_failed rest true
  | did_finish_load :: rest => last_load_failed rest false
  | _ :: rest => last_load_failed rest pending
  end.

(** The outcomes a sequence of load events reports: [false] for each failure,
    [true] for each finished load that does not answer a failure. *)
Fixpoint load_outcomes (events : list Event) (pending : bool) : list bool :=
  match events with
  | [] => []
  | did_fail_load :: rest => false :: load_outcomes rest true
  | did_finish_load :: rest =>
      if pending then load_outcomes rest false
      else true :: load_outcomes rest false
  | _ :: rest => load_outcomes rest pending
  end.

(** ** Reading a list of calls *)

Definition is_injection (c : Call) : bool :=
  match c with webContents_executeJavaScript _ => true | _ => false end.

Definition is_window_setTitle (c : Call) : bool :=
  match c with window_setTitle _ => true | _ => false end.

Definition is_console_error (c : Call) : bool :=
  match c with console_error _ _ => true | _ => false end.

(** The call injects one of the two unregister scripts for [windowName]. *)
Definition is_unregister_for (windowName : string) (c : Call) : bool :=
  match c with
  | webContents_executeJavaScript cmd =>
      (cmd =? unregister_via_window_opener_cmd windowName) ||
      (cmd =? unregister_via_window_cmd windowName)
  | _ => false
  end.

(** The call injects the register script for [windowName]. *)
Definition is_register_for (windowName : string) (c : Call) : bool :=
  match c with
  | webContents_executeJavaScript cmd => cmd =? register_cmd windowName
  | _ => false
  end.

(** The wrapper with the constructor's defaults applied to its options. *)
Definition defaulted (this : DesktopBrowserWindow) : DesktopBrowserWindow :=
  {| options := options (constructor (options this) (window_title this));
     failLoad := failLoad this;
     window_title := window_title this;
     close_listener := close_listener this |}.

(** ** The runtime's [URL] on an IPv6 literal

    The runtime serialises the host of an IPv6 address in brackets: for
    [http://[::1]:8787/] its [hostname] is ['[::1]'] and its [host] is
    ['[::1]:8787'].  [ipv6_URL_new] adds that address to the table of
    [sample_URL_new]. *)
Definition ipv6_URL_new (url : string) : Completion URL :=
  if url =? "http://[::1]:8787/" then
    Normal {| hostname := "[::1]"; host := "[::1]:8787" |}
  else sample_URL_new url.

Definition ipv6_env : Collaborators :=
  {| URL_new := ipv6_URL_new;
     isSafeHost := sample_isSafeHost;
     executeJavaScript_settles := fun _ => Resolved;
     createAndShowToolbar_settles := fun _ => Resolved;
     webContents_getTitle := "RStudio";
     windowOpening_answer := action_allow 0;
     path_join := sample_path_join;
     dirname := "/app" |}.

(** ** Events and window-open requests together

    What the host asks of the wrapper: an event for one of the listeners, or a
    window-open request for the callback given to [setWindowOpenHandler]. *)
Inductive Request : Type :=
| host_event (e : Event)
| window_open_request (details : HandlerDetails).

(** The wrapper after one request, and the calls the request caused. *)
Definition serve (env : Collaborators) (this : DesktopBrowserWindow) (q : Request)
  : DesktopBrowserWindow * list Call :=
  match q with
  | host_event e => (final (deliver env this e), trace (deliver env this e))
  | window_open_request details =>
      (final (windowOpenHandler env details this),
       trace (windowOpenHandler env details this))
  end.

(** Everything caused while a sequence of requests was served, one after the
    other. *)
Fixpoint session (env : Collaborators) (requests : list Request)
         (this : DesktopBrowserWindow) : list Call :=
  match requests with
  | [] => []
  | q :: rest => snd (serve env this q) ++ session env rest (fst (serve env this q))
  end.

(** * Basic facts *)

Lemma prefix_app (a b : string) : prefix a (a ++ b) = true.
Proof.
  induction a as [|c a IH]; simpl.
  - now destruct b.
  - destruct (ascii_dec c c) as [_|ne]; [exact IH | now elim ne].
Qed.

Lemma prefix_split (a s : string) : prefix a s = true -> exists post, s = a ++ post.
Proof.
  revert s; induction a as [|c a IH]; intros s H.
  - now exists s.
  - destruct s as [|d s]; simpl in H; [discriminate|].
    destruct (ascii_dec c d) as [->|]; [|discriminate].
    destruct (IH s H) as [post ->]. now exists post.
Qed.

Lemma includes_of_prefix (needle hay : string) :
  prefix needle hay = true -> includes needle hay = true.
Proof. intros P. destruct hay; cbn [includes]; now rewrite P. Qed.

Lemma includes_intro (needle pre post : string) :
  includes needle (pre ++ needle ++ post) = true.
Proof.
  induction pre as [|c pre IH].
  - change (EmptyString ++ needle ++ post) with (needle ++ post).
    apply includes_of_prefix, prefix_app.
  - change (String c pre ++ needle ++ post) with (String c (pre ++ needle ++ post)).
    cbn [includes]. rewrite IH.
    now destruct (prefix needle (String c (pre ++ needle ++ post))).
Qed.

Lemma includes_elim (needle hay : string) :
  includes needle hay = true -> exists pre post, hay = pre ++ needle ++ post.
Proof.
  induction hay as [|c hay IH]; cbn [includes].
  - destruct (prefix needle EmptyString) eqn:P; [|discriminate].
    intros _. destruct (prefix_split _ _ P) as [post E].
    exists EmptyString, post. exact E.
  - destruct (prefix needle (String c hay)) eqn:P.
    + intros _. destruct (prefix_split _ _ P) as [post E].
      exists EmptyString, post. exact E.
    + intros H. destruct (IH H) as (pre & post & ->).
      now exists (String c pre), post.
Qed.

(** [includes] decides containment. *)
Lemma includes_spec (needle hay : string) :
  includes needle hay = true <-> exists pre post, hay = pre ++ needle ++ post.
Proof.
  split.
  - apply includes_elim.
  - intros (pre & post & ->). apply includes_intro.
Qed.

Lemma includes_satellite (windowName : string) :
  includes "satellite" windowName = true <-> contains_satellite windowName.
Proof. apply includes_spec. Qed.

(** * Navigation policy (['will-navigate']) *)

Lemma isLocal_test_true (h : string) : isLocal_test h = true <-> local_hostname h.
Proof.
  unfold isLocal_test, local_hostname.
  rewrite !orb_true_iff, !String.eqb_eq. tauto.
Qed.

Lemma isLocal_test_false (h : string) : isLocal_test h = false <-> ~ local_hostname h.
Proof.
  rewrite <- isLocal_test_true. now destruct (isLocal_test h).
Qed.

(** The listener, branch by branch. *)
Lemma on_will_navigate_unfold (env : Collaborators) (url : string)
      (this : DesktopBrowserWindow) :
  on_will_navigate env url this =
  match URL_new env url with
  | Throw err =>
      {| completion := Normal tt; final := this;
         calls := [logger_logError err; event_preventDefault]; settled := [] |}
  | Normal u =>
      if isLocal_test (hostname u)
         || truthy_bool (allowExternalNavigate (options this))
         || isSafeHost env (host u)
      then {| completion := Normal tt; final := this; calls := []; settled := [] |}
      else {| completion := Normal tt; final := this;
              calls := [event_preventDefault; shell_openExternal url]; settled := [] |}
  end.
Proof.
  unfold on_will_navigate, try_catch, bind, new_URL, complete, call, ret, this_.
  destruct (URL_new env url) as [u|err]; [|reflexivity].
  change ((hostname u =? "localhost") || (hostname u =? "127.0.0.1") || (hostname u =? "::1"))
    with (isLocal_test (hostname u)).
  destruct (isLocal_test (hostname u)); [reflexivity|].
  destruct (truthy_bool (allowExternalNavigate (options this))); [reflexivity|].
  destruct (isSafeHost env (host u)); reflexivity.
Qed.

(** C1.  When external navigation is not allowed, the address parses, its
    hostname is none of [localhost], [127.0.0.1], [::1], and the safe-host
    predicate rejects its host, the listener vetoes the navigation and opens
    the external browser exactly once, on the address string it was given;
    it makes no other call. *)
Theorem unsafe_external_navigation_is_vetoed_and_opened_externally
        (env : Collaborators) (this : DesktopBrowserWindow) (url : string) (u : URL) :
  truthy_bool (allowExternalNavigate (options this)) = false ->
  URL_new env url = Normal u ->
  ~ local_hostname (hostname u) ->
  isSafeHost env (host u) = false ->
  let r := deliver env this (will_navigate url) in
  trace r = [event_preventDefault; shell_openExternal url] /\
  In event_preventDefault (trace r) /\
  filter is_openExternal (trace r) = [shell_openExternal url] /\
  completion r = Normal tt /\
  final r = this.
Proof.
  intros Hflag Hparse Hlocal Hsafe r. subst r.
  unfold deliver, listener. rewrite on_will_navigate_unfold, Hparse.
  apply isLocal_test_false in Hlocal. rewrite Hlocal, Hflag, Hsafe.
  cbn. repeat split; auto.
Qed.

Lemma unsafe_external_navigation_witness :
  let this := constructor (sample_options "secondary") "RStudio" in
  let r := deliver sample_env this (will_navigate "https://example.com/page") in
  trace r = [event_preventDefault; shell_openExternal "https://example.com/page"] /\
  In event_preventDefault (trace r) /\
  filter is_openExternal (trace r) = [shell_openExternal "https://example.com/page"] /\
  completion r = Normal tt /\
  final r = this.
Proof.
  apply (@unsafe_external_navigation_is_vetoed_and_opened_externally
           sample_env
           (constructor (sample_options "secondary") "RStudio")
           "https://example.com/page"
           {| hostname := "example.com"; host := "example.com" |}).
  - reflexivity.
  - reflexivity.
  - unfold local_hostname; cbn. intros [H|[H|H]]; discriminate H.
  - reflexivity.
Defined.

(** When the hostname the parser returns is one of the three strings the
    listener compares it with, the listener makes no call at all (no veto, no
    external browser) and leaves the wrapper as it was, whatever
    [allowExternalNavigate] is. *)
Theorem local_navigation_proceeds_in_place
        (env : Collaborators) (this : DesktopBrowserWindow) (url : string) (u : URL) :
  URL_new env url = Normal u ->
  local_hostname (hostname u) ->
  let r := deliver env this (will_navigate url) in
  trace r = [] /\ completion r = Normal tt /\ final r = this.
Proof.
  intros Hparse Hlocal r. subst r.
  unfold deliver, listener. rewrite on_will_navigate_unfold, Hparse.
  apply isLocal_test_true in Hlocal. rewrite Hlocal.
  cbn. repeat split; auto.
Qed.

Lemma local_navigation_witness :
  (let this := constructor
                 (with_flags None None (Some false) (sample_options "secondary")) "RStudio" in
   let r := deliver sample_env this (will_navigate "http://localhost:8787/") in
   trace r = [] /\ completion r = Normal tt /\ final r = this) /\
  (let this := constructor
                 (with_flags None None (Some true) (sample_options "secondary")) "RStudio" in
   let r := deliver sample_env this (will_navigate "http://127.0.0.1:8787/help/") in
   trace r = [] /\ completion r = Normal tt /\ final r = this).
Proof.
  split.
  - apply (@local_navigation_proceeds_in_place sample_env _ "http://localhost:8787/"
             {| hostname := "localhost"; host := "localhost:8787" |}).
    + reflexivity.
    + left; reflexivity.
  - apply (@local_navigation_proceeds_in_place sample_env _ "http://127.0.0.1:8787/help/"
             {| hostname := "127.0.0.1"; host := "127.0.0.1:8787" |}).
    + reflexivity.
    + right; left; reflexivity.
Defined.

(** C2, where the code departs from it.  The listener compares the hostname
    with ['::1'], but the hostname the runtime returns for the IPv6 loopback
    is ['[::1]'].  For an address with that hostname the listener does not
    take the local branch: when external navigation is not allowed and the
    safe-host predicate rejects the host, it vetoes the navigation and opens
    the external browser, instead of letting the navigation proceed in
    place. *)
Theorem ipv6_loopback_is_vetoed_and_opened_externally
        (env : Collaborators) (this : DesktopBrowserWindow) (url : string) (u : URL) :
  URL_new env url = Normal u ->
  hostname u = "[::1]" ->
  truthy_bool (allowExternalNavigate (options this)) = false ->
  isSafeHost env (host u) = false ->
  let r := deliver env this (will_navigate url) in
  ~ local_hostname (hostname u) /\
  trace r = [event_preventDefault; shell_openExternal url] /\
  trace r <> [].
Proof.
  intros Hparse Hhost Hflag Hsafe r. subst r.
  assert (Hlocal : ~ local_hostname (hostname u)).
  { rewrite Hhost. intros [H|[H|H]]; discriminate H. }
  split; [exact Hlocal|].
  unfold deliver, listener. rewrite on_will_navigate_unfold, Hparse.
  apply isLocal_test_false in Hlocal. rewrite Hlocal, Hflag, Hsafe.
  cbn. split; [reflexivity | discriminate].
Qed.

Lemma ipv6_loopback_witness :
  let this := constructor (sample_options "main") "RStudio" in
  let r := deliver ipv6_env this (will_navigate "http://[::1]:8787/") in
  URL_new ipv6_env "http://[::1]:8787/"
    = Normal {| hostname := "[::1]"; host := "[::1]:8787" |} /\
  trace r = [event_preventDefault; shell_openExternal "http://[::1]:8787/"].
Proof.
  split; [reflexivity|].
  apply (@ipv6_loopback_is_vetoed_and_opened_externally ipv6_env
           (constructor (sample_options "main") "RStudio")
           "http://[::1]:8787/"
           {| hostname := "[::1]"; host := "[::1]:8787" |}).
  - reflexivity.
  - reflexivity.
  - reflexivity.
  - reflexivity.
Defined.

(** C3.  When the address does not parse, the listener logs the error the
    parser threw, vetoes the navigation, and does not open the external
    browser; the exception does not leave the listener. *)
Theorem malformed_url_is_logged_and_vetoed
        (env : Collaborators) (this : DesktopBrowserWindow) (url : string) (err : Error) :
  URL_new env url = Throw err ->
  let r := deliver env this (will_navigate url) in
  trace r = [logger_logError err; event_preventDefault] /\
  In event_preventDefault (trace r) /\
  In (logger_logError err) (trace r) /\
  filter is_openExternal (trace r) = [] /\
  completion r = Normal tt /\
  final r = this.
Proof.
  intros Hparse r. subst r.
  unfold deliver, listener. rewrite on_will_navigate_unfold, Hparse.
  cbn. repeat split; auto.
Qed.

Lemma malformed_url_witness :
  let this := constructor (sample_options "secondary") "RStudio" in
  let r := deliver sample_env this (will_navigate "not a url") in
  trace r = [logger_logError {| message := "Invalid URL" |}; event_preventDefault] /\
  In event_preventDefault (trace r) /\
  In (logger_logError {| message := "Invalid URL" |}) (trace r) /\
  filter is_openExternal (trace r) = [] /\
  completion r = Normal tt /\
  final r = this.
Proof.
  apply (@malformed_url_is_logged_and_vetoed sample_env _ "not a url"
           {| message := "Invalid URL" |}).
  reflexivity.
Defined.

(** C4.  When external navigation is allowed and the address parses to a
    hostname that is not local, the listener makes no call: the navigation
    proceeds in place and the external browser is not opened. *)
Theorem allowed_external_navigation_proceeds_in_place
        (env : Collaborators) (this : DesktopBrowserWindow) (url : string) (u : URL) :
  truthy_bool (allowExternalNavigate (options this)) = true ->
  URL_new env url = Normal u ->
  ~ local_hostname (hostname u) ->
  let r := deliver env this (will_navigate url) in
  trace r = [] /\ completion r = Normal tt /\ final r = this.
Proof.
  intros Hflag Hparse Hlocal r. subst r.
  unfold deliver, listener. rewrite on_will_navigate_unfold, Hparse, Hflag.
  rewrite orb_true_r. cbn. repeat split; auto.
Qed.

Lemma allowed_external_navigation_witness :
  let this := constructor
                (with_flags None None (Some true) (sample_options "secondary")) "RStudio" in
  let r := deliver sample_env this (will_navigate "https://example.com/page") in
  trace r = [] /\ completion r = Normal tt /\ final r = this.
Proof.
  apply (@allowed_external_navigation_proceeds_in_place sample_env _
           "https://example.com/page"
           {| hostname := "example.com"; host := "example.com" |}).
  - reflexivity.
  - reflexivity.
  - unfold local_hostname; cbn. intros [H|[H|H]]; discriminate H.
Defined.

(** * What an event does to the wrapper object *)

Lemma final_deliver (env : Collaborators) (this : DesktopBrowserWindow) (e : Event) :
  final (deliver env this e) =
  match e with
  | will_navigate _ => this
  | page_title_updated title explicitSet =>
      if truthy_bool (adjustTitle (options this)) && explicitSet
      then set_window_title title this else this
  | did_finish_load =>
      if failLoad this then set_failLoad false this
      else if truthy_bool (adjustTitle (options this))
           then set_window_title (webContents_getTitle env) this else this
  | did_fail_load => set_failLoad true this
  | close => this
  end.
Proof.
  destruct e as [url|title explicitSet| | |]; unfold deliver, listener.
  - rewrite on_will_navigate_unfold.
    destruct (URL_new env url) as [u|err]; [|reflexivity].
    now destruct (isLocal_test (hostname u) ||
                  truthy_bool (allowExternalNavigate (options this)) ||
                  isSafeHost env (host u)).
  - run_listener.
    now destruct (truthy_bool (adjustTitle (options this)) && explicitSet).
  - run_listener.
    destruct (truthy_bool (showToolbar (options this))); cbn;
      destruct (failLoad this); cbn; try reflexivity;
      destruct (truthy_bool (adjustTitle (options this))); reflexivity.
  - reflexivity.
  - run_listener.
    destruct (close_listener this); [|reflexivity]. cbn.
    now destruct (truthy_object (opener (options this))).
Qed.

(** No listener changes the options or detaches the ['close'] listener. *)
Lemma deliver_keeps_configuration (env : Collaborators) (this : DesktopBrowserWindow)
      (e : Event) :
  options (final (deliver env this e)) = options this /\
  close_listener (final (deliver env this e)) = close_listener this.
Proof.
  rewrite final_deliver. destruct e as [url|title explicitSet| | |]; auto.
  - now destruct (truthy_bool (adjustTitle (options this)) && explicitSet).
  - destruct (failLoad this); auto.
    now destruct (truthy_bool (adjustTitle (options this))).
Qed.

Lemma after_keeps_configuration (env : Collaborators) (events : list Event) :
  forall this,
    options (after env events this) = options this /\
    close_listener (after env events this) = close_listener this.
Proof.
  induction events as [|e rest IH]; intros this; cbn [after]; [auto|].
  destruct (IH (final (deliver env this e))) as [Ho Hc].
  destruct (deliver_keeps_configuration env this e) as [Ho' Hc'].
  split; congruence.
Qed.

(** The fail flag after an event: set by a failure, cleared by a finished
    load, untouched by anything else. *)
Lemma failLoad_deliver (env : Collaborators) (this : DesktopBrowserWindow) (e : Event) :
  failLoad (final (deliver env this e)) =
  match e with
  | did_fail_load => true
  | did_finish_load => false
  | _ => failLoad this
  end.
Proof.
  rewrite final_deliver. destruct e as [url|title explicitSet| | |]; auto.
  - now destruct (truthy_bool (adjustTitle (options this)) && explicitSet).
  - destruct (failLoad this) eqn:F; auto.
    now destruct (truthy_bool (adjustTitle (options this))).
Qed.

Lemma failLoad_stays_clear (env : Collaborators) (events : list Event) :
  Forall (fun e => e <> did_fail_load) events ->
  forall this, failLoad this = false -> failLoad (after env events this) = false.
Proof.
  induction 1 as [|e rest He _ IH]; intros this F; cbn [after]; [exact F|].
  apply IH. rewrite failLoad_deliver.
  destruct e; auto. now elim He.
Qed.

(** * Load completion and failure *)

(** The entries into the finish routine made by a finished load. *)
Lemma finish_calls_did_finish_load (env : Collaborators) (this : DesktopBrowserWindow) :
  finish_calls (trace (deliver env this did_finish_load)) =
  if failLoad this then [] else [true].
Proof.
  run_listener.
  destruct (truthy_bool (showToolbar (options this))); cbn;
    destruct (failLoad this); cbn;
    repeat match goal with
           | |- context [match ?p with Resolved => _ | Rejected _ => _ end] => destruct p
           | |- context [truthy_bool ?b] => destruct (truthy_bool b)
           end; cbn; reflexivity.
Qed.

(** C5.  From any state of a wrapper: a load failure sets the fail flag and
    enters the finish routine exactly once, with [succeeded = false]; the
    load-finished event that follows it clears the flag and does not enter
    the finish routine; and a later load-finished event, with no failure
    since, enters the finish routine exactly once with [succeeded = true]. *)
Theorem load_failure_then_finished_then_finished
        (env : Collaborators) (this : DesktopBrowserWindow) (later : list Event) :
  Forall (fun e => e <> did_fail_load) later ->
  let r1 := deliver env this did_fail_load in
  let r2 := deliver env (final r1) did_finish_load in
  let r3 := deliver env (after env later (final r2)) did_finish_load in
  (failLoad (final r1) = true /\ finish_calls (trace r1) = [false]) /\
  (failLoad (final r2) = false /\ finish_calls (trace r2) = []) /\
  (failLoad (final r3) = false /\ finish_calls (trace r3) = [true]).
Proof.
  intros Hlater r1 r2 r3.
  assert (F1 : failLoad (final r1) = true) by (subst r1; now rewrite failLoad_deliver).
  assert (F2 : failLoad (final r2) = false) by (subst r2; now rewrite failLoad_deliver).
  assert (F3 : failLoad (after env later (final r2)) = false)
    by (now apply failLoad_stays_clear).
  split; [split | split; split].
  - exact F1.
  - reflexivity.
  - exact F2.
  - subst r2. now rewrite finish_calls_did_finish_load, F1.
  - subst r3. now rewrite failLoad_deliver.
  - subst r3. now rewrite finish_calls_did_finish_load, F3.
Qed.

Lemma load_failure_then_finished_witness :
  let this := constructor (sample_options "secondary") "RStudio" in
  let later := [page_title_updated "Help" true; will_navigate "http://localhost:8787/";
                did_finish_load] in
  let r1 := deliver sample_env this did_fail_load in
  let r2 := deliver sample_env (final r1) did_finish_load in
  let r3 := deliver sample_env (after sample_env later (final r2)) did_finish_load in
  (failLoad (final r1) = true /\ finish_calls (trace r1) = [false]) /\
  (failLoad (final r2) = false /\ finish_calls (trace r2) = []) /\
  (failLoad (final r3) = false /\ finish_calls (trace r3) = [true]).
Proof.
  apply (@load_failure_then_finished_then_finished sample_env
           (constructor (sample_options "secondary") "RStudio")
           [page_title_updated "Help" true; will_navigate "http://localhost:8787/";
            did_finish_load]).
  repeat constructor; discriminate.
Defined.

(** * Title synchronisation (['page-title-updated']) *)

(** C9.  On a title update: with [adjustTitle] off the chrome title is not
    touched and [setTitle] is not called, whether the update was explicit or
    not; with [adjustTitle] on, an explicit update sets the chrome title to
    the new title and a non-explicit one leaves it alone. *)
Theorem title_update_mirrors_only_explicit_titles_when_adjusting
        (env : Collaborators) (this : DesktopBrowserWindow)
        (title : string) (explicitSet : bool) :
  let r := deliver env this (page_title_updated title explicitSet) in
  (truthy_bool (adjustTitle (options this)) = false ->
   window_title (final r) = window_title this /\ trace r = []) /\
  (truthy_bool (adjustTitle (options this)) = true -> explicitSet = true ->
   window_title (final r) = title /\ trace r = [window_setTitle title]) /\
  (truthy_bool (adjustTitle (options this)) = true -> explicitSet = false ->
   window_title (final r) = window_title this /\ trace r = []).
Proof.
  run_listener.
  repeat split; intros; subst;
    repeat match goal with H : truthy_bool _ = _ |- _ => rewrite H in * end;
    reflexivity.
Qed.

Lemma title_update_witness :
  (let this := constructor (with_flags None (Some false) None (sample_options "secondary"))
                           "RStudio" in
   let r := deliver sample_env this (page_title_updated "Help" true) in
   window_title (final r) = "RStudio" /\ trace r = []) /\
  (let this := constructor (with_flags None (Some true) None (sample_options "secondary"))
                           "RStudio" in
   let r := deliver sample_env this (page_title_updated "Help" true) in
   window_title (final r) = "Help" /\ trace r = [window_setTitle "Help"]) /\
  (let this := constructor (with_flags None (Some true) None (sample_options "secondary"))
                           "RStudio" in
   let r := deliver sample_env this (page_title_updated "Help" false) in
   window_title (final r) = "RStudio" /\ trace r = []).
Proof.
  split; [|split].
  - apply (proj1 (@title_update_mirrors_only_explicit_titles_when_adjusting
                    sample_env
                    (constructor (with_flags None (Some false) None (sample_options "secondary"))
                                 "RStudio")
                    "Help" true)).
    reflexivity.
  - apply (proj1 (proj2 (@title_update_mirrors_only_explicit_titles_when_adjusting
                    sample_env
                    (constructor (with_flags None (Some true) None (sample_options "secondary"))
                                 "RStudio")
                    "Help" true))); reflexivity.
  - apply (proj2 (proj2 (@title_update_mirrors_only_explicit_titles_when_adjusting
                    sample_env
                    (constructor (with_flags None (Some true) None (sample_options "secondary"))
                                 "RStudio")
                    "Help" false))); reflexivity.
Defined.

(** * Toolbar on load-finished *)

(** C10.  On a load-finished event with [showToolbar] on, the toolbar is
    created as the first call of the listener and exactly once, whatever the
    fail flag is; when the flag is set (the load failed) the toolbar call is
    the only synchronous call: the finish routine is not entered and the flag
    is cleared. *)
Theorem toolbar_is_created_before_the_fail_flag_is_checked
        (env : Collaborators) (this : DesktopBrowserWindow) :
  truthy_bool (showToolbar (options this)) = true ->
  let r := deliver env this did_finish_load in
  (exists rest,
      calls r = toolbarManager_createAndShowToolbar (toolbarData env) :: rest) /\
  filter is_createAndShowToolbar (trace r) =
    [toolbarManager_createAndShowToolbar (toolbarData env)] /\
  (failLoad this = true ->
   calls r = [toolbarManager_createAndShowToolbar (toolbarData env)] /\
   finish_calls (trace r) = [] /\
   failLoad (final r) = false).
Proof.
  intros Hshow. run_listener. rewrite Hshow. cbn.
  destruct (failLoad this); cbn;
    destruct (truthy_bool (adjustTitle (options this))); cbn;
    destruct (createAndShowToolbar_settles env (toolbarData env)); cbn;
    destruct (executeJavaScript_settles env (register_cmd (name (options this)))); cbn;
    (split; [eexists; reflexivity|]);
    (split; [reflexivity|]);
    intros F; try discriminate F; repeat split.
Qed.

Lemma toolbar_on_failed_load_witness :
  let this := final (deliver failing_env
                       (constructor (with_flags (Some true) None None
                                                (sample_options "secondary")) "RStudio")
                       did_fail_load) in
  let r := deliver failing_env this did_finish_load in
  failLoad this = true /\
  truthy_bool (showToolbar (options this)) = true /\
  trace r = [toolbarManager_createAndShowToolbar (toolbarData failing_env);
             console_error toolbar_error_msg {| message := "no toolbar" |}] /\
  calls r = [toolbarManager_createAndShowToolbar (toolbarData failing_env)] /\
  finish_calls (trace r) = [] /\
  failLoad (final r) = false.
Proof.
  pose proof (@toolbar_is_created_before_the_fail_flag_is_checked failing_env
                (final (deliver failing_env
                          (constructor (with_flags (Some true) None None
                                                   (sample_options "secondary")) "RStudio")
                          did_fail_load))
                eq_refl) as (_ & _ & H).
  destruct (H eq_refl) as (Hcalls & Hfinish & Hflag).
  split; [reflexivity|]. split; [reflexivity|]. split; [reflexivity|].
  split; [exact Hcalls|]. split; [exact Hfinish | exact Hflag].
Defined.

(** * New-window requests *)

(** The handler, branch by branch. *)
Lemma windowOpenHandler_unfold (env : Collaborators) (details : HandlerDetails)
      (this : DesktopBrowserWindow) :
  windowOpenHandler env details this =
  if truthy_string (baseUrl (options this)) &&
     (Disposition_eqb (disposition details) foreground_tab ||
      Disposition_eqb (disposition details) background_tab)
  then {| completion := Normal action_deny; final := this;
          calls := [shell_openExternal (details_url details)]; settled := [] |}
  else {| completion := Normal (windowOpening_answer env); final := this;
          calls := [appState_windowOpening]; settled := [] |}.
Proof.
  run_listener.
  now destruct (truthy_string (baseUrl (options this)) &&
                (Disposition_eqb (disposition details) foreground_tab ||
                 Disposition_eqb (disposition details) background_tab)).
Qed.

Lemma tab_disposition_test (d : Disposition) :
  Disposition_eqb d foreground_tab || Disposition_eqb d background_tab = true
  <-> tab_disposition d.
Proof.
  unfold tab_disposition. destruct d; cbn; split; intros H;
    try reflexivity; try discriminate H; auto;
    destruct H as [H|H]; discriminate H.
Qed.

Lemma truthy_string_nonempty (s : option string) :
  truthy_string s = true <-> exists b, s = Some b /\ b <> EmptyString.
Proof.
  destruct s as [[|c b]|]; cbn; split; intros H; try discriminate H.
  - destruct H as (b & E & Hb). inversion E; subst. now elim Hb.
  - exists (String c b). split; [reflexivity|discriminate].
  - reflexivity.
  - destruct H as (b & E & _). discriminate E.
Qed.

(** C6, as stated, fails: a wrapper whose base URL is the empty string
    delegates a foreground-tab request to [appState().windowOpening()] and
    does not open the external browser. *)
Lemma empty_baseUrl_tab_request_is_delegated :
  let this := constructor (with_baseUrl (Some EmptyString) (sample_options "main")) "RStudio" in
  let details := {| details_url := "https://example.com/page";
                    disposition := foreground_tab |} in
  let r := windowOpenHandler sample_env details this in
  (baseUrl (options this) = Some EmptyString /\
   tab_disposition (disposition details) /\
   trace r = [appState_windowOpening] /\
   completion r = Normal (action_allow 0)) /\
  ~ tab_request_with_any_baseUrl_opens_externally.
Proof.
  cbn zeta. split.
  - repeat split. left; reflexivity.
  - intros claim.
    destruct (claim sample_env
                (constructor (with_baseUrl (Some EmptyString) (sample_options "main")) "RStudio")
                {| details_url := "https://example.com/page"; disposition := foreground_tab |})
      as [Htrace _].
    + left; reflexivity.
    + discriminate.
    + discriminate Htrace.
Qed.

(** C6, amended.  A new-window request is opened in the external browser and
    denied in the host exactly when its disposition is ['foreground-tab'] or
    ['background-tab'] and the wrapper's base URL is present and not the empty
    string; every other request (other dispositions, no base URL, empty base
    URL) is handed to [appState().windowOpening()], whose answer is returned
    and which is the only call made. *)
Theorem new_window_requests_open_externally_or_are_delegated
        (env : Collaborators) (this : DesktopBrowserWindow) (details : HandlerDetails) :
  let r := windowOpenHandler env details this in
  let external :=
    tab_disposition (disposition details) /\
    exists b, baseUrl (options this) = Some b /\ b <> EmptyString in
  (external ->
   trace r = [shell_openExternal (details_url details)] /\
   completion r = Normal action_deny /\ final r = this) /\
  (~ external ->
   trace r = [appState_windowOpening] /\
   completion r = Normal (windowOpening_answer env) /\ final r = this).
Proof.
  cbn zeta. rewrite windowOpenHandler_unfold.
  rewrite <- truthy_string_nonempty, <- tab_disposition_test.
  destruct (truthy_string (baseUrl (options this)));
    destruct (Disposition_eqb (disposition details) foreground_tab ||
              Disposition_eqb (disposition details) background_tab); cbn;
    split; intros H; auto; try (destruct H; discriminate); elim H; auto.
Qed.

Lemma new_window_requests_witness :
  (let this := constructor (with_baseUrl (Some "http://localhost:8787/")
                                         (sample_options "main")) "RStudio" in
   let details := {| details_url := "https://example.com/page";
                     disposition := background_tab |} in
   let r := windowOpenHandler sample_env details this in
   trace r = [shell_openExternal "https://example.com/page"] /\
   completion r = Normal action_deny /\ final r = this) /\
  (let this := constructor (with_baseUrl (Some "http://localhost:8787/")
                                         (sample_options "main")) "RStudio" in
   let details := {| details_url := "https://example.com/page";
                     disposition := new_window |} in
   let r := windowOpenHandler sample_env details this in
   trace r = [appState_windowOpening] /\
   completion r = Normal (action_allow 0) /\ final r = this).
Proof.
  split.
  - apply (proj1 (@new_window_requests_open_externally_or_are_delegated sample_env
                    (constructor (with_baseUrl (Some "http://localhost:8787/")
                                               (sample_options "main")) "RStudio")
                    {| details_url := "https://example.com/page";
                       disposition := background_tab |})).
    split.
    + right; reflexivity.
    + eexists; split; [reflexivity|discriminate].
  - apply (proj2 (@new_window_requests_open_externally_or_are_delegated sample_env
                    (constructor (with_baseUrl (Some "http://localhost:8787/")
                                               (sample_options "main")) "RStudio")
                    {| details_url := "https://example.com/page";
                       disposition := new_window |})).
    intros [[H|H] _]; discriminate H.
Defined.

(** * Close handshake *)

(** The register script is neither of the unregister scripts, whatever the
    names spliced into them. *)
Lemma register_cmd_is_not_unregister (n : string) :
  ~ is_unregister_injection (webContents_executeJavaScript (register_cmd n)).
Proof.
  intros [m [H|H]]; unfold register_cmd, unregister_via_window_opener_cmd,
    unregister_via_window_cmd in H; cbn in H; discriminate H.
Qed.

(** The wrapper built by the constructor, after any events, still has the
    options' name and opener and the listener decision of the constructor. *)
Lemma after_constructor (env : Collaborators) (opts : WindowConstructorOptions)
      (host_title : string) (events : list Event) :
  let this := after env events (constructor opts host_title) in
  name (options this) = name opts /\
  opener (options this) = opener opts /\
  close_listener this = negb (includes "satellite" (name opts)).
Proof.
  cbn zeta.
  destruct (after_keeps_configuration env events (constructor opts host_title)) as [Ho Hc].
  rewrite Ho, Hc. repeat split.
Qed.

(** Without a ['close'] listener no event makes the wrapper inject an
    unregister script. *)
Lemma deliver_without_close_listener (env : Collaborators) (this : DesktopBrowserWindow)
      (e : Event) (c : Call) :
  close_listener this = false ->
  In c (trace (deliver env this e)) -> ~ is_unregister_injection c.
Proof.
  intros Hc Hin [m Hm].
  assert (Hreg : c <> webContents_executeJavaScript (register_cmd (name (options this)))).
  { intros ->. apply (@register_cmd_is_not_unregister (name (options this))).
    now exists m. }
  destruct e as [url|title explicitSet| | |]; revert Hin.
  - unfold deliver, listener. rewrite on_will_navigate_unfold.
    destruct (URL_new env url) as [u|err];
      [destruct (isLocal_test (hostname u) ||
                 truthy_bool (allowExternalNavigate (options this)) ||
                 isSafeHost env (host u))|];
      cbn; intros Hin; repeat (destruct Hin as [<-|Hin]); try contradiction;
      destruct Hm as [Hm|Hm]; discriminate Hm.
  - run_listener.
    destruct (truthy_bool (adjustTitle (options this)) && explicitSet);
      cbn; intros Hin; repeat (destruct Hin as [<-|Hin]); try contradiction;
      destruct Hm as [Hm|Hm]; discriminate Hm.
  - run_listener.
    destruct (truthy_bool (showToolbar (options this))); cbn;
      destruct (failLoad this); cbn;
      repeat match goal with
             | |- context [match ?p with Resolved => _ | Rejected _ => _ end] => destruct p
             | |- context [truthy_bool ?b] => destruct (truthy_bool b)
             end; cbn;
      intros Hin; repeat (destruct Hin as [<-|Hin]); try contradiction;
      try (now elim Hreg); destruct Hm as [Hm|Hm]; discriminate Hm.
  - run_listener.
    intros Hin; repeat (destruct Hin as [<-|Hin]); try contradiction;
      destruct Hm as [Hm|Hm]; discriminate Hm.
  - run_listener. rewrite Hc. cbn. contradiction.
Qed.

Lemma history_without_close_listener (env : Collaborators) (events : list Event) :
  forall this c,
    close_listener this = false ->
    In c (history env events this) -> ~ is_unregister_injection c.
Proof.
  induction events as [|e rest IH]; intros this c Hc Hin; cbn [history] in Hin.
  - contradiction.
  - apply in_app_or in Hin. destruct Hin as [Hin|Hin].
    + now apply (deliver_without_close_listener env this e).
    + apply (IH (final (deliver env this e))); [|exact Hin].
      destruct (deliver_keeps_configuration env this e) as [_ ->]. exact Hc.
Qed.

(** C7.  A wrapper constructed with a name that contains [satellite] has no
    ['close'] listener: after any events, a close event makes no call at all
    and leaves the wrapper unchanged, and no sequence of events (close events
    included) ever injects an unregister script. *)
Theorem satellite_windows_close_without_handshake
        (env : Collaborators) (opts : WindowConstructorOptions) (host_title : string)
        (events : list Event) :
  contains_satellite (name opts) ->
  let this := after env events (constructor opts host_title) in
  let r := deliver env this close in
  (trace r = [] /\ completion r = Normal tt /\ final r = this) /\
  (forall c, In c (history env events (constructor opts host_title)) ->
             ~ is_unregister_injection c).
Proof.
  intros Hsat. apply includes_satellite in Hsat. cbn zeta. split.
  - destruct (after_constructor env opts host_title events) as (_ & _ & Hc).
    rewrite Hsat in Hc. cbn in Hc.
    run_listener. rewrite Hc. cbn. repeat split.
  - intros c. apply history_without_close_listener.
    cbn. now rewrite Hsat.
Qed.

Lemma satellite_close_witness :
  let opts := sample_options "_rstudio_satellite_plot" in
  let events := [did_finish_load; close; page_title_updated "Plot" true] in
  let this := after sample_env events (constructor opts "RStudio") in
  let r := deliver sample_env this close in
  (trace r = [] /\ completion r = Normal tt /\ final r = this) /\
  (forall c, In c (history sample_env events (constructor opts "RStudio")) ->
             ~ is_unregister_injection c).
Proof.
  apply (@satellite_windows_close_without_handshake sample_env
           (sample_options "_rstudio_satellite_plot") "RStudio"
           [did_finish_load; close; page_title_updated "Plot" true]).
  exists "_rstudio_", "_plot". reflexivity.
Defined.

(** C8.  A wrapper constructed with a name that does not contain [satellite]
    answers a close event, after any events, with exactly one script
    injection: the script guarding on and calling
    [window.opener.unregisterDesktopChildWindow] when the options have no
    opener, the one guarding on and calling [window.unregisterDesktopChildWindow]
    when they have one, each with the window name spliced in.  A rejected
    injection is logged by the promise callback; nothing is thrown out of the
    listener and the close is not vetoed. *)
Theorem non_satellite_close_injects_unregister_script
        (env : Collaborators) (opts : WindowConstructorOptions) (host_title : string)
        (events : list Event) :
  ~ contains_satellite (name opts) ->
  let this := after env events (constructor opts host_title) in
  let r := deliver env this close in
  let cmd := match opener opts with
             | None => unregister_via_window_opener_cmd (name opts)
             | Some _ => unregister_via_window_cmd (name opts)
             end in
  calls r = [webContents_executeJavaScript cmd] /\
  settled r = match executeJavaScript_settles env cmd with
              | Resolved => []
              | Rejected reason => [logger_logError reason]
              end /\
  completion r = Normal tt /\
  ~ In event_preventDefault (trace r) /\
  final r = this.
Proof.
  intros Hsat. rewrite <- includes_satellite in Hsat.
  apply not_true_is_false in Hsat. cbn zeta.
  destruct (after_constructor env opts host_title events) as (Hn & Ho & Hc).
  rewrite Hsat in Hc. cbn in Hc.
  run_listener. rewrite Hc, Ho, Hn. cbn.
  destruct (opener opts) as [w|]; cbn;
    repeat split; auto;
    match goal with
    | |- ~ _ => destruct (executeJavaScript_settles env _); cbn;
                intros H; repeat (destruct H as [H|H]); try discriminate H; exact H
    end.
Qed.

Lemma non_satellite_close_witness :
  (let opts := sample_options "secondary" in
   let this := after failing_env [did_finish_load] (constructor opts "RStudio") in
   let r := deliver failing_env this close in
   calls r = [webContents_executeJavaScript
                ("if (window.opener && window.opener.unregisterDesktopChildWindow)" ++ nl ++
                 "           window.opener.unregisterDesktopChildWindow('secondary');")] /\
   settled r = [logger_logError {| message := "Script failed to execute" |}] /\
   completion r = Normal tt /\
   ~ In event_preventDefault (trace r) /\
   final r = this) /\
  (let opts := with_opener (Some {| webContentsId := 1 |}) (sample_options "secondary") in
   let this := after sample_env [did_finish_load] (constructor opts "RStudio") in
   let r := deliver sample_env this close in
   calls r = [webContents_executeJavaScript
                ("if (window.unregisterDesktopChildWindow)" ++ nl ++
                 "           window.unregisterDesktopChildWindow('secondary');")] /\
   settled r = [] /\
   completion r = Normal tt /\
   ~ In event_preventDefault (trace r) /\
   final r = this).
Proof.
  split.
  - apply (@non_satellite_close_injects_unregister_script failing_env
             (sample_options "secondary") "RStudio" [did_finish_load]).
    rewrite <- includes_satellite. cbn. discriminate.
  - apply (@non_satellite_close_injects_unregister_script sample_env
             (with_opener (Some {| webContentsId := 1 |}) (sample_options "secondary"))
             "RStudio" [did_finish_load]).
    rewrite <- includes_satellite. cbn. discriminate.
Defined.

(** * The listeners, result by result *)

Lemma on_did_finish_load_unfold (env : Collaborators) (this : DesktopBrowserWindow) :
  deliver env this did_finish_load =
  {| completion := Normal tt;
     final :=
       if failLoad this then set_failLoad false this
       else if truthy_bool (adjustTitle (options this))
            then set_window_title (webContents_getTitle env) this
            else this;
     calls :=
       (if truthy_bool (showToolbar (options this))
        then [toolbarManager_createAndShowToolbar (toolbarData env)] else []) ++
       (if failLoad this then []
        else enter_finishLoading true ::
             (if truthy_bool (adjustTitle (options this))
              then [window_setTitle (webContents_getTitle env)] else []) ++
             [webContents_executeJavaScript (register_cmd (name (options this)))]);
     settled :=
       (if truthy_bool (showToolbar (options this))
        then match createAndShowToolbar_settles env (toolbarData env) with
             | Resolved => []
             | Rejected reason => [console_error toolbar_error_msg reason]
             end
        else []) ++
       (if failLoad this then []
        else match executeJavaScript_settles env (register_cmd (name (options this))) with
             | Resolved => []
             | Rejected reason => [logger_logError reason]
             end) |}.
Proof.
  run_listener.
  destruct (truthy_bool (showToolbar (options this))); cbn;
    destruct (failLoad this); cbn;
    destruct (truthy_bool (adjustTitle (options this))); cbn;
    destruct (createAndShowToolbar_settles env (toolbarData env)); cbn;
    destruct (executeJavaScript_settles env (register_cmd (name (options this))));
    reflexivity.
Qed.

Lemma adjustWindowTitle_unfold (env : Collaborators) (this : DesktopBrowserWindow)
      (title : string) (explicitSet : bool) :
  deliver env this (page_title_updated title explicitSet) =
  if truthy_bool (adjustTitle (options this)) && explicitSet
  then {| completion := Normal tt; final := set_window_title title this;
          calls := [window_setTitle title]; settled := [] |}
  else {| completion := Normal tt; final := this; calls := []; settled := [] |}.
Proof.
  run_listener.
  now destruct (truthy_bool (adjustTitle (options this)) && explicitSet).
Qed.

Lemma on_close_unfold (env : Collaborators) (this : DesktopBrowserWindow) :
  deliver env this close =
  if close_listener this then
    let cmd := if truthy_object (opener (options this))
               then unregister_via_window_cmd (name (options this))
               else unregister_via_window_opener_cmd (name (options this)) in
    {| completion := Normal tt; final := this;
       calls := [webContents_executeJavaScript cmd];
       settled := match executeJavaScript_settles env cmd with
                  | Resolved => []
                  | Rejected reason => [logger_logError reason]
                  end |}
  else {| completion := Normal tt; final := this; calls := []; settled := [] |}.
Proof.
  run_listener.
  destruct (close_listener this); cbn; [|reflexivity].
  destruct (truthy_object (opener (options this))); cbn;
    match goal with
    | |- context [executeJavaScript_settles env ?c] =>
        destruct (executeJavaScript_settles env c)
    end; reflexivity.
Qed.

Lemma on_did_fail_load_unfold (env : Collaborators) (this : DesktopBrowserWindow) :
  deliver env this did_fail_load =
  {| completion := Normal tt; final := set_failLoad true this;
     calls := [enter_finishLoading false]; settled := [] |}.
Proof. reflexivity. Qed.

Lemma deliver_will_navigate (env : Collaborators) (this : DesktopBrowserWindow)
      (url : string) :
  deliver env this (will_navigate url) = on_will_navigate env url this.
Proof. reflexivity. Qed.

(** Case analysis on the branches a listener can take. *)
Ltac listener_cases :=
  repeat match goal with
         | |- context [match URL_new ?env ?url with _ => _ end] =>
             let E := fresh "Eparse" in destruct (URL_new env url) eqn:E
         | |- context [if ?b then _ else _] =>
             let E := fresh "Ecase" in destruct b eqn:E
         | |- context [match ?p with Resolved => _ | Rejected _ => _ end] =>
             let E := fresh "Esettle" in destruct p eqn:E
         end; cbn.

(** * Further properties of the listeners *)

(** X1.  No listener lets an exception escape: every event is handled to
    normal completion, and so is every window-open request, whatever the
    parser throws and however the injected promises settle. *)
Theorem listeners_never_throw
        (env : Collaborators) (this : DesktopBrowserWindow) :
  (forall e : Event, completion (deliver env this e) = Normal tt) /\
  (forall details : HandlerDetails,
      exists answer, completion (windowOpenHandler env details this) = Normal answer).
Proof.
  split.
  - intros [url|title explicitSet| | |].
    + rewrite deliver_will_navigate, on_will_navigate_unfold. now listener_cases.
    + rewrite adjustWindowTitle_unfold. now listener_cases.
    + now rewrite on_did_finish_load_unfold.
    + reflexivity.
    + rewrite on_close_unfold. now listener_cases.
  - intros details. rewrite windowOpenHandler_unfold.
    listener_cases; eexists; reflexivity.
Qed.

(** X2.  A navigation attempt has one of three outcomes and no other: no call
    at all; a veto followed by one external-browser call on the address given;
    or, when the address does not parse, the error logged followed by a veto.
    It never changes the wrapper, never defers work to a promise callback, and
    whenever it opens the external browser it is for the address it was given
    and the in-page navigation is vetoed. *)
Theorem navigation_has_three_outcomes
        (env : Collaborators) (this : DesktopBrowserWindow) (url : string) :
  let r := deliver env this (will_navigate url) in
  final r = this /\
  settled r = [] /\
  (calls r = [] \/
   calls r = [event_preventDefault; shell_openExternal url] \/
   exists err, URL_new env url = Throw err /\
               calls r = [logger_logError err; event_preventDefault]) /\
  (forall u, In (shell_openExternal u) (trace r) ->
             u = url /\ In event_preventDefault (trace r)).
Proof.
  cbn zeta. rewrite deliver_will_navigate, on_will_navigate_unfold. unfold trace.
  listener_cases;
    (split; [reflexivity|]); (split; [reflexivity|]); split.
  all: try (first [ left; reflexivity
                  | right; left; reflexivity
                  | right; right; eexists; split; reflexivity ]).
  all: intros v Hin.
  all: repeat (destruct Hin as [Hin|Hin]); try discriminate Hin; try contradiction.
  inversion Hin. split; [reflexivity | left; reflexivity].
Qed.

Lemma navigation_outcome_witness :
  let this := constructor (sample_options "secondary") "RStudio" in
  let r := deliver sample_env this (will_navigate "https://example.com/page") in
  In (shell_openExternal "https://example.com/page") (trace r) /\
  In event_preventDefault (trace r).
Proof.
  assert (Hin : In (shell_openExternal "https://example.com/page")
                   (trace (deliver sample_env
                             (constructor (sample_options "secondary") "RStudio")
                             (will_navigate "https://example.com/page")))).
  { cbn. right; left; reflexivity. }
  split; [exact Hin|].
  exact (proj2 (proj2 (proj2 (proj2
           (@navigation_has_three_outcomes sample_env
              (constructor (sample_options "secondary") "RStudio")
              "https://example.com/page"))) _ Hin)).
Defined.

(** X3.  An address whose host the safe-host predicate accepts is navigated to
    in place: the listener makes no call, whether or not external navigation
    is allowed. *)
Theorem safe_host_navigation_proceeds_in_place
        (env : Collaborators) (this : DesktopBrowserWindow) (url : string) (u : URL) :
  URL_new env url = Normal u ->
  isSafeHost env (host u) = true ->
  let r := deliver env this (will_navigate url) in
  trace r = [] /\ final r = this.
Proof.
  intros Hparse Hsafe. cbn zeta.
  rewrite deliver_will_navigate, on_will_navigate_unfold, Hparse, Hsafe.
  rewrite orb_true_r. split; reflexivity.
Qed.

Lemma safe_host_navigation_witness :
  let this := constructor (with_flags None None (Some false) (sample_options "secondary"))
                          "RStudio" in
  let r := deliver sample_env this (will_navigate "https://www.youtube.com/embed/x") in
  trace r = [] /\ final r = this.
Proof.
  apply (@safe_host_navigation_proceeds_in_place sample_env _
           "https://www.youtube.com/embed/x"
           {| hostname := "www.youtube.com"; host := "www.youtube.com" |}).
  - reflexivity.
  - reflexivity.
Defined.

(** * Sequences of events *)

Lemma finish_calls_append (t u : list Call) :
  finish_calls (t ++ u) = (finish_calls t ++ finish_calls u)%list.
Proof.
  induction t as [|c t IH]; cbn; [reflexivity|].
  destruct c; cbn; now rewrite ?IH.
Qed.

(** What one event reports about loading. *)
Lemma finish_calls_deliver (env : Collaborators) (this : DesktopBrowserWindow) (e : Event) :
  finish_calls (trace (deliver env this e)) =
  match e with
  | did_fail_load => [false]
  | did_finish_load => if failLoad this then [] else [true]
  | _ => []
  end.
Proof.
  destruct e as [url|title explicitSet| | |].
  - rewrite deliver_will_navigate, on_will_navigate_unfold. unfold trace.
    now listener_cases.
  - rewrite adjustWindowTitle_unfold. unfold trace. now listener_cases.
  - apply finish_calls_did_finish_load.
  - reflexivity.
  - rewrite on_close_unfold. unfold trace. now listener_cases.
Qed.

(** X4.  The fail flag always says whether the most recent load event was a
    failure: after any sequence of events it is set exactly when the last
    load event of the sequence is a load failure (and keeps its value when
    the sequence has no load event). *)
Theorem failLoad_tells_whether_last_load_failed
        (env : Collaborators) (events : list Event) (this : DesktopBrowserWindow) :
  failLoad (after env events this) = last_load_failed events (failLoad this).
Proof.
  revert this. induction events as [|e rest IH]; intros this; cbn [after].
  - reflexivity.
  - rewrite IH, failLoad_deliver. now destruct e.
Qed.

Lemma load_outcomes_failures (events : list Event) (pending : bool) :
  length (filter negb (load_outcomes events pending)) =
  length (filter is_did_fail_load events).
Proof.
  revert pending. induction events as [|e rest IH]; intros pending; cbn.
  - reflexivity.
  - destruct e; cbn; try apply IH.
    + destruct pending; cbn; apply IH.
    + now rewrite IH.
Qed.

(** X5.  Over any sequence of events the finish routine is entered once with
    [false] for every load failure and once with [true] for every finished
    load that does not directly answer a failure, in that order and never
    otherwise; in particular the number of [false] entries is the number of
    load failures. *)
Theorem finish_routine_entries_follow_the_load_events
        (env : Collaborators) (events : list Event) (this : DesktopBrowserWindow) :
  finish_calls (history env events this) = load_outcomes events (failLoad this) /\
  length (filter negb (finish_calls (history env events this))) =
    length (filter is_did_fail_load events).
Proof.
  assert (H : forall this,
             finish_calls (history env events this) = load_outcomes events (failLoad this)).
  { clear this. induction events as [|e rest IH]; intros this; cbn [history].
    - reflexivity.
    - rewrite finish_calls_append, finish_calls_deliver, IH, failLoad_deliver.
      destruct e; cbn; try reflexivity.
      now destruct (failLoad this). }
  split; [apply H|]. rewrite H. apply load_outcomes_failures.
Qed.

(** The title-setting calls of one event. *)
Lemma setTitle_calls_deliver (env : Collaborators) (this : DesktopBrowserWindow) (e : Event) :
  truthy_bool (adjustTitle (options this)) = false ->
  filter is_window_setTitle (trace (deliver env this e)) = [] /\
  window_title (final (deliver env this e)) = window_title this.
Proof.
  intros Hadj. destruct e as [url|title explicitSet| | |].
  - rewrite deliver_will_navigate, on_will_navigate_unfold. unfold trace.
    now listener_cases.
  - rewrite adjustWindowTitle_unfold, Hadj. now cbn.
  - rewrite on_did_finish_load_unfold, Hadj. unfold trace. cbn.
    now listener_cases.
  - now cbn.
  - rewrite on_close_unfold. unfold trace. now listener_cases.
Qed.

(** X6.  With [adjustTitle] off the chrome title is never touched: over any
    sequence of events (title updates, finished loads with their one-shot
    sync, and all others) [setTitle] is not called and the title stays what it
    was. *)
Theorem title_is_never_set_without_adjustTitle
        (env : Collaborators) (events : list Event) (this : DesktopBrowserWindow) :
  truthy_bool (adjustTitle (options this)) = false ->
  filter is_window_setTitle (history env events this) = [] /\
  window_title (after env events this) = window_title this.
Proof.
  revert this. induction events as [|e rest IH]; intros this Hadj; cbn [history after].
  - now split.
  - destruct (setTitle_calls_deliver env this e Hadj) as [Hcalls Htitle].
    destruct (deliver_keeps_configuration env this e) as [Hopts _].
    destruct (IH (final (deliver env this e))) as [IHcalls IHtitle].
    { now rewrite Hopts. }
    rewrite filter_app, Hcalls, IHcalls, IHtitle, Htitle. now split.
Qed.

Lemma title_is_never_set_witness :
  let this := constructor (sample_options "secondary") "RStudio" in
  let events := [page_title_updated "Help" true; did_finish_load;
                 did_fail_load; did_finish_load; close] in
  filter is_window_setTitle (history sample_env events this) = [] /\
  window_title (after sample_env events this) = "RStudio".
Proof.
  apply (@title_is_never_set_without_adjustTitle sample_env
           [page_title_updated "Help" true; did_finish_load;
            did_fail_load; did_finish_load; close]
           (constructor (sample_options "secondary") "RStudio")).
  reflexivity.
Defined.

(** The vetoes and external-browser calls of one event. *)
Lemma veto_and_external_calls_deliver (env : Collaborators) (this : DesktopBrowserWindow)
      (e : Event) :
  (forall u, In (shell_openExternal u) (trace (deliver env this e)) ->
             e = will_navigate u /\
             truthy_bool (allowExternalNavigate (options this)) = false) /\
  (In event_preventDefault (trace (deliver env this e)) ->
   exists url, e = will_navigate url).
Proof.
  destruct e as [url|title explicitSet| | |].
  - rewrite deliver_will_navigate, on_will_navigate_unfold. unfold trace.
    listener_cases; split; try (intros _; now exists url).
    all: intros v Hin.
    all: repeat (destruct Hin as [Hin|Hin]); try discriminate Hin; try contradiction.
    inversion Hin. split; [reflexivity|].
    apply orb_false_elim in Ecase. destruct Ecase as [Ecase _].
    apply orb_false_elim in Ecase. now destruct Ecase.
  - rewrite adjustWindowTitle_unfold. unfold trace.
    listener_cases; split; intros; repeat (destruct H as [H|H]);
      try discriminate H; contradiction.
  - rewrite on_did_finish_load_unfold. unfold trace. cbn.
    listener_cases; split; intros; repeat (destruct H as [H|H]);
      try discriminate H; contradiction.
  - cbn. split; intros; repeat (destruct H as [H|H]);
      try discriminate H; contradiction.
  - rewrite on_close_unfold. unfold trace.
    listener_cases; split; intros; repeat (destruct H as [H|H]);
      try discriminate H; contradiction.
Qed.

(** The external-browser calls and vetoes of one window-open request. *)
Lemma veto_and_external_calls_window_open (env : Collaborators)
      (this : DesktopBrowserWindow) (details : HandlerDetails) :
  final (windowOpenHandler env details this) = this /\
  (forall u, In (shell_openExternal u) (trace (windowOpenHandler env details this)) ->
             details_url details = u /\
             tab_disposition (disposition details) /\
             truthy_string (baseUrl (options this)) = true) /\
  ~ In event_preventDefault (trace (windowOpenHandler env details this)).
Proof.
  rewrite windowOpenHandler_unfold. unfold trace.
  destruct (truthy_string (baseUrl (options this))) eqn:Hbase;
    destruct (Disposition_eqb (disposition details) foreground_tab ||
              Disposition_eqb (disposition details) background_tab) eqn:Htab;
    cbn; (split; [reflexivity|]); split;
    try (intros u [H|[]]; discriminate H);
    try (intros [H|[]]; discriminate H).
  intros u [H|[]]. inversion H. split; [reflexivity|].
  split; [now apply tab_disposition_test | reflexivity].
Qed.

Lemma serve_keeps_options (env : Collaborators) (this : DesktopBrowserWindow) (q : Request) :
  options (fst (serve env this q)) = options this.
Proof.
  destruct q as [e|details]; cbn [serve fst].
  - apply deliver_keeps_configuration.
  - now destruct (veto_and_external_calls_window_open env this details) as [-> _].
Qed.



(** * Registration with the opener *)

Lemma register_is_not_unregister_for (n m : string) :
  is_unregister_for m (webContents_executeJavaScript (register_cmd n)) = false.
Proof.
  cbn. apply orb_false_intro; apply String.eqb_neq; intros H;
    apply (@register_cmd_is_not_unregister n); exists m; [left|right]; now rewrite H.
Qed.

Lemma unregister_is_not_register_for (n m : string) :
  is_register_for m (webContents_executeJavaScript (unregister_via_window_opener_cmd n)) = false /\
  is_register_for m (webContents_executeJavaScript (unregister_via_window_cmd n)) = false.
Proof.
  cbn. split; apply String.eqb_neq; intros H;
    apply (@register_cmd_is_not_unregister m); exists n; [left|right]; now rewrite H.
Qed.

Lemma unregister_is_unregister_for (n : string) :
  is_unregister_for n (webContents_executeJavaScript (unregister_via_window_opener_cmd n)) = true /\
  is_unregister_for n (webContents_executeJavaScript (unregister_via_window_cmd n)) = true.
Proof.
  cbn. rewrite !String.eqb_refl, orb_true_r. now split.
Qed.

(** The unregister injections of one event. *)
Lemma unregister_calls_deliver (env : Collaborators) (this : DesktopBrowserWindow) (e : Event) :
  length (filter (is_unregister_for (name (options this))) (trace (deliver env this e))) =
  if is_close e && close_listener this then 1 else 0.
Proof.
  destruct e as [url|title explicitSet| | |].
  - rewrite deliver_will_navigate, on_will_navigate_unfold. unfold trace.
    now listener_cases.
  - rewrite adjustWindowTitle_unfold. unfold trace. now listener_cases.
  - rewrite on_did_finish_load_unfold. unfold trace. cbn [calls settled].
    rewrite !filter_app.
    destruct (truthy_bool (showToolbar (options this)));
      destruct (failLoad this);
      destruct (truthy_bool (adjustTitle (options this)));
      destruct (createAndShowToolbar_settles env (toolbarData env));
      destruct (executeJavaScript_settles env (register_cmd (name (options this))));
      cbn [filter app is_unregister_for length andb is_close];
      rewrite ?register_is_not_unregister_for; reflexivity.
  - reflexivity.
  - rewrite on_close_unfold. unfold trace.
    destruct (unregister_is_unregister_for (name (options this))) as [H1 H2].
    destruct (close_listener this); [|reflexivity].
    cbn zeta. cbn [calls settled is_close andb].
    destruct (truthy_object (opener (options this)));
      match goal with
      | |- context [executeJavaScript_settles env ?c] =>
          destruct (executeJavaScript_settles env c)
      end; cbn [filter app length]; rewrite ?H1, ?H2; reflexivity.
Qed.

(** The register injections of one event. *)
Lemma register_calls_deliver (env : Collaborators) (this : DesktopBrowserWindow) (e : Event) :
  length (filter (is_register_for (name (options this))) (trace (deliver env this e))) =
  match e with
  | did_finish_load => if failLoad this then 0 else 1
  | _ => 0
  end.
Proof.
  destruct e as [url|title explicitSet| | |].
  - rewrite deliver_will_navigate, on_will_navigate_unfold. unfold trace.
    now listener_cases.
  - rewrite adjustWindowTitle_unfold. unfold trace. now listener_cases.
  - rewrite on_did_finish_load_unfold. unfold trace. cbn [calls settled].
    rewrite !filter_app.
    destruct (truthy_bool (showToolbar (options this)));
      destruct (failLoad this);
      destruct (truthy_bool (adjustTitle (options this)));
      destruct (createAndShowToolbar_settles env (toolbarData env));
      destruct (executeJavaScript_settles env (register_cmd (name (options this))));
      cbn [filter app is_register_for length];
      rewrite ?String.eqb_refl; reflexivity.
  - reflexivity.
  - rewrite on_close_unfold. unfold trace.
    destruct (unregister_is_not_register_for (name (options this)) (name (options this)))
      as [H1 H2].
    destruct (close_listener this); [|reflexivity].
    cbn zeta. cbn [calls settled].
    destruct (truthy_object (opener (options this)));
      match goal with
      | |- context [executeJavaScript_settles env ?c] =>
          destruct (executeJavaScript_settles env c)
      end; cbn [filter app length]; rewrite ?H1, ?H2; reflexivity.
Qed.

(** X8.  Over any sequence of events a wrapper with the ['close'] listener
    injects an unregister script for its name exactly once per close request
    and at no other moment; a wrapper without the listener never injects
    one. *)
Theorem one_unregister_injection_per_close_request
        (env : Collaborators) (events : list Event) (this : DesktopBrowserWindow) :
  length (filter (is_unregister_for (name (options this))) (history env events this)) =
  if close_listener this then length (filter is_close events) else 0.
Proof.
  revert this. induction events as [|e rest IH]; intros this; cbn [history].
  - now destruct (close_listener this).
  - rewrite filter_app, length_app, unregister_calls_deliver.
    destruct (deliver_keeps_configuration env this e) as [Hopts Hlistener].
    rewrite <- Hopts, IH, Hlistener.
    destruct (close_listener this), e; cbn; reflexivity.
Qed.

(** X9.  Over any sequence of events the wrapper injects the register script
    for its name once for every finished load that does not answer a failure
    (the loads reported with [true]) and at no other moment: never for a
    failed load, a navigation, a title update or a close request. *)
Theorem one_register_injection_per_successful_load
        (env : Collaborators) (events : list Event) (this : DesktopBrowserWindow) :
  length (filter (is_register_for (name (options this))) (history env events this)) =
  length (filter (fun succeeded : bool => succeeded)
                 (load_outcomes events (failLoad this))).
Proof.
  revert this. induction events as [|e rest IH]; intros this; cbn [history].
  - reflexivity.
  - rewrite filter_app, length_app, register_calls_deliver.
    destruct (deliver_keeps_configuration env this e) as [Hopts _].
    rewrite <- Hopts, IH, failLoad_deliver.
    destruct e; cbn; try reflexivity.
    now destruct (failLoad this).
Qed.

(** X10.  Across a load-failure event and the load-finished event that
    follows it, the wrapper injects no script (the window is not registered
    with its opener) and does not set the title.  The finish routine is
    entered once, with [false], and that is all the failure event does; the
    load-finished event makes one call only, the toolbar creation, and only
    when [showToolbar] is on (a rejection of it going to the console).  The
    wrapper ends as it began, with the fail flag cleared. *)
Theorem failed_load_injects_nothing_and_keeps_the_title
        (env : Collaborators) (this : DesktopBrowserWindow) :
  let r1 := deliver env this did_fail_load in
  let r2 := deliver env (final r1) did_finish_load in
  filter is_injection (trace r1 ++ trace r2) = [] /\
  filter is_window_setTitle (trace r1 ++ trace r2) = [] /\
  finish_calls (trace r1 ++ trace r2) = [false] /\
  final r2 = set_failLoad false this /\
  trace r1 = [enter_finishLoading false] /\
  calls r2 =
    (if truthy_bool (showToolbar (options this))
     then [toolbarManager_createAndShowToolbar (toolbarData env)] else []) /\
  settled r2 =
    (if truthy_bool (showToolbar (options this))
     then match createAndShowToolbar_settles env (toolbarData env) with
          | Resolved => []
          | Rejected reason => [console_error toolbar_error_msg reason]
          end
     else []).
Proof.
  cbn zeta. rewrite on_did_fail_load_unfold. cbn [final].
  rewrite on_did_finish_load_unfold. unfold trace. cbn.
  listener_cases; repeat split.
Qed.

(** X11.  A finished load that does not answer a failure injects exactly one
    script, the register script for the wrapper's name; it sets the chrome
    title to the page's current title when [adjustTitle] is on and leaves it
    alone otherwise; and a rejection of the injection is logged by the
    promise callback. *)
Theorem successful_load_registers_the_window_and_syncs_the_title
        (env : Collaborators) (this : DesktopBrowserWindow) :
  failLoad this = false ->
  let r := deliver env this did_finish_load in
  let cmd := register_cmd (name (options this)) in
  filter is_injection (calls r) = [webContents_executeJavaScript cmd] /\
  filter is_window_setTitle (calls r) =
    (if truthy_bool (adjustTitle (options this))
     then [window_setTitle (webContents_getTitle env)] else []) /\
  window_title (final r) =
    (if truthy_bool (adjustTitle (options this))
     then webContents_getTitle env else window_title this) /\
  filter (fun c => negb (is_console_error c)) (settled r) =
    match executeJavaScript_settles env cmd with
    | Resolved => []
    | Rejected reason => [logger_logError reason]
    end.
Proof.
  intros Hflag. cbn zeta. rewrite on_did_finish_load_unfold, Hflag. cbn.
  listener_cases; repeat split.
Qed.

Lemma successful_load_witness :
  let this := constructor (with_flags None (Some true) None (sample_options "secondary"))
                          "Untitled" in
  let r := deliver failing_env this did_finish_load in
  filter is_injection (calls r) =
    [webContents_executeJavaScript
       ("if (window.opener && window.opener.registerDesktopChildWindow)" ++ nl ++
        "         window.opener.registerDesktopChildWindow('secondary', window);")] /\
  filter is_window_setTitle (calls r) = [window_setTitle "RStudio"] /\
  window_title (final r) = "RStudio" /\
  filter (fun c => negb (is_console_error c)) (settled r) =
    [logger_logError {| message := "Script failed to execute" |}].
Proof.
  apply (@successful_load_registers_the_window_and_syncs_the_title failing_env
           (constructor (with_flags None (Some true) None (sample_options "secondary"))
                        "Untitled")).
  reflexivity.
Defined.

(** * Toolbar *)

(** The toolbar calls of one event. *)
Lemma toolbar_calls_deliver (env : Collaborators) (this : DesktopBrowserWindow) (e : Event) :
  truthy_bool (showToolbar (options this)) = false ->
  filter is_createAndShowToolbar (trace (deliver env this e)) = [] /\
  filter is_console_error (trace (deliver env this e)) = [].
Proof.
  intros Hshow. destruct e as [url|title explicitSet| | |].
  - rewrite deliver_will_navigate, on_will_navigate_unfold. unfold trace.
    now listener_cases.
  - rewrite adjustWindowTitle_unfold. unfold trace. now listener_cases.
  - rewrite on_did_finish_load_unfold, Hshow. unfold trace. cbn.
    now listener_cases.
  - now cbn.
  - rewrite on_close_unfold. unfold trace. now listener_cases.
Qed.

(** X12.  With [showToolbar] off no toolbar is ever created and nothing is
    ever written to the console, over any sequence of events. *)
Theorem no_toolbar_without_showToolbar
        (env : Collaborators) (events : list Event) (this : DesktopBrowserWindow) :
  truthy_bool (showToolbar (options this)) = false ->
  filter is_createAndShowToolbar (history env events this) = [] /\
  filter is_console_error (history env events this) = [].
Proof.
  revert this. induction events as [|e rest IH]; intros this Hshow; cbn [history].
  - now split.
  - destruct (toolbar_calls_deliver env this e Hshow) as [H1 H2].
    destruct (deliver_keeps_configuration env this e) as [Hopts _].
    destruct (IH (final (deliver env this e))) as [IH1 IH2].
    { now rewrite Hopts. }
    rewrite !filter_app, H1, H2, IH1, IH2. now split.
Qed.

Lemma no_toolbar_witness :
  let this := constructor (sample_options "secondary") "RStudio" in
  let events := [did_finish_load; did_fail_load; did_finish_load; did_finish_load] in
  filter is_createAndShowToolbar (history failing_env events this) = [] /\
  filter is_console_error (history failing_env events this) = [].
Proof.
  apply (@no_toolbar_without_showToolbar failing_env
           [did_finish_load; did_fail_load; did_finish_load; did_finish_load]
           (constructor (sample_options "secondary") "RStudio")).
  reflexivity.
Defined.

(** X13.  A toolbar that cannot be created does not disturb the load: the
    rejection is written to the console by the promise callback, once, with
    the fixed message; nothing is thrown; and the listener goes on to the
    fail-flag check as with a toolbar that was created, entering the finish
    routine and injecting the register script unless the load had failed. *)
Theorem toolbar_failure_is_reported_and_the_load_goes_on
        (env : Collaborators) (this : DesktopBrowserWindow) (reason : Error) :
  truthy_bool (showToolbar (options this)) = true ->
  createAndShowToolbar_settles env (toolbarData env) = Rejected reason ->
  let r := deliver env this did_finish_load in
  filter is_console_error (settled r) = [console_error toolbar_error_msg reason] /\
  filter is_console_error (calls r) = [] /\
  completion r = Normal tt /\
  finish_calls (trace r) = (if failLoad this then [] else [true]) /\
  filter is_injection (calls r) =
    (if failLoad this then []
     else [webContents_executeJavaScript (register_cmd (name (options this)))]).
Proof.
  intros Hshow Hreject. cbn zeta.
  rewrite on_did_finish_load_unfold, Hshow, Hreject. unfold trace. cbn.
  listener_cases; repeat split.
Qed.

Lemma toolbar_failure_witness :
  let this := constructor (with_flags (Some true) None None (sample_options "secondary"))
                          "RStudio" in
  let r := deliver failing_env this did_finish_load in
  filter is_console_error (settled r) =
    [console_error "Error when trying to add Secondary Window toolbar"
                   {| message := "no toolbar" |}] /\
  filter is_console_error (calls r) = [] /\
  completion r = Normal tt /\
  finish_calls (trace r) = [true] /\
  filter is_injection (calls r) = [webContents_executeJavaScript (register_cmd "secondary")].
Proof.
  apply (@toolbar_failure_is_reported_and_the_load_goes_on failing_env
           (constructor (with_flags (Some true) None None (sample_options "secondary"))
                        "RStudio")
           {| message := "no toolbar" |}).
  - reflexivity.
  - reflexivity.
Defined.

(** * The constructor *)

Lemma truthy_nullish (b : option bool) :
  truthy_bool (Some (nullish b false)) = truthy_bool b.
Proof. now destruct b as [[|]|]. Qed.

(** X14.  The constructor's defaults change nothing a listener does: on a
    wrapper whose optional flags were left out, every event and every
    window-open request makes the same calls, settles the same callbacks and
    completes the same way as after the defaults were filled in, and the two
    wrappers stay related. *)
Theorem defaults_do_not_change_what_listeners_do
        (env : Collaborators) (this : DesktopBrowserWindow) :
  (forall e : Event,
      let r := deliver env this e in
      let r' := deliver env (defaulted this) e in
      calls r' = calls r /\ settled r' = settled r /\
      completion r' = completion r /\ final r' = defaulted (final r)) /\
  (forall details : HandlerDetails,
      let r := windowOpenHandler env details this in
      let r' := windowOpenHandler env details (defaulted this) in
      calls r' = calls r /\ settled r' = settled r /\
      completion r' = completion r /\ final r' = defaulted (final r)).
Proof.
  split.
  - intros [url|title explicitSet| | |]; cbn zeta.
    + rewrite !deliver_will_navigate, !on_will_navigate_unfold.
      cbn [defaulted options constructor allowExternalNavigate].
      rewrite truthy_nullish. listener_cases; repeat split.
    + rewrite !adjustWindowTitle_unfold.
      cbn [defaulted options constructor adjustTitle].
      rewrite truthy_nullish. listener_cases; repeat split.
    + rewrite !on_did_finish_load_unfold.
      cbn [defaulted options constructor adjustTitle showToolbar name failLoad].
      rewrite !truthy_nullish. cbn. listener_cases; repeat split.
    + repeat split.
    + rewrite !on_close_unfold.
      cbn [defaulted options constructor name opener close_listener].
      listener_cases; repeat split.
  - intros details; cbn zeta. rewrite !windowOpenHandler_unfold.
    cbn [defaulted options constructor baseUrl].
    listener_cases; repeat split.
Qed.

(** X15.  The constructor builds a wrapper whose fail flag is clear, whose
    four optional flags are all defined (the value given, [false] when left
    out), whose other options are the ones given, and which listens to
    ['close'] exactly when the name does not contain [satellite]; applying it
    to its own options changes nothing more. *)
Theorem constructor_fills_in_the_flags_and_keeps_the_rest
        (opts : WindowConstructorOptions) (host_title : string) :
  let this := constructor opts host_title in
  failLoad this = false /\
  window_title this = host_title /\
  (showToolbar (options this) = Some (truthy_bool (showToolbar opts)) /\
   adjustTitle (options this) = Some (truthy_bool (adjustTitle opts)) /\
   autohideMenu (options this) = Some (truthy_bool (autohideMenu opts)) /\
   allowExternalNavigate (options this) = Some (truthy_bool (allowExternalNavigate opts))) /\
  (name (options this) = name opts /\
   baseUrl (options this) = baseUrl opts /\
   parent (options this) = parent opts /\
   opener (options this) = opener opts /\
   addApiKeys (options this) = addApiKeys opts /\
   existingWindow (options this) = existingWindow opts) /\
  (close_listener this = true <-> ~ contains_satellite (name opts)) /\
  constructor (options this) host_title = this.
Proof.
  cbn zeta. split; [reflexivity|]. split; [reflexivity|].
  split.
  { cbn. now destruct (showToolbar opts) as [[|]|], (adjustTitle opts) as [[|]|],
      (autohideMenu opts) as [[|]|], (allowExternalNavigate opts) as [[|]|]. }
  split; [now cbn|].
  split.
  - cbn [close_listener constructor]. rewrite <- includes_satellite.
    destruct (includes "satellite" (name opts)); cbn; split; intros H;
      try reflexivity; try discriminate H; now elim H.
  - unfold constructor; cbn.
    now destruct (showToolbar opts) as [[|]|], (adjustTitle opts) as [[|]|],
      (autohideMenu opts) as [[|]|], (allowExternalNavigate opts) as [[|]|].
Qed.

(** * The injected scripts *)

Lemma string_app_assoc (a b c : string) : (a ++ b) ++ c = a ++ b ++ c.
Proof. induction a as [|x a IH]; cbn; [reflexivity | now rewrite IH]. Qed.

Lemma string_length_app (a b : string) :
  String.length (a ++ b) = String.length a + String.length b.
Proof. induction a as [|x a IH]; cbn; [reflexivity | now rewrite IH]. Qed.

Lemma string_app_inv_head (p a b : string) : p ++ a = p ++ b -> a = b.
Proof.
  induction p as [|x p IH]; cbn; intros H; [exact H|].
  apply IH. now inversion H.
Qed.

Lemma string_app_inv_tail (s a b : string) : a ++ s = b ++ s -> a = b.
Proof.
  revert b. induction a as [|x a IH]; intros [|y b] H; cbn in H.
  - reflexivity.
  - apply (f_equal String.length) in H. cbn in H.
    rewrite string_length_app in H. lia.
  - apply (f_equal String.length) in H. cbn in H.
    rewrite string_length_app in H. lia.
  - inversion H as [[Hxy Hab]]. f_equal. now apply IH.
Qed.

(** Cancel the fixed text around the name spliced into a script. *)
Ltac cancel_script_text :=
  repeat match goal with
         | H : ?p ++ _ = ?p ++ _ |- _ => apply string_app_inv_head in H
         end;
  match goal with
  | H : _ ++ ?s = _ ++ ?s |- _ => now apply string_app_inv_tail in H
  end.

(** X16.  Each injected script identifies the window it is for and what it
    does: two names give the same register script (or the same unregister
    script of either kind) only when they are the same name, and no register
    script is an unregister script, nor is an unregister script of one kind
    one of the other kind, whatever names are spliced in. *)
Theorem injected_scripts_are_told_apart (a b : string) :
  (register_cmd a = register_cmd b <-> a = b) /\
  (unregister_via_window_opener_cmd a = unregister_via_window_opener_cmd b <-> a = b) /\
  (unregister_via_window_cmd a = unregister_via_window_cmd b <-> a = b) /\
  register_cmd a <> unregister_via_window_opener_cmd b /\
  register_cmd a <> unregister_via_window_cmd b /\
  unregister_via_window_opener_cmd a <> unregister_via_window_cmd b.
Proof.
  unfold register_cmd, unregister_via_window_opener_cmd, unregister_via_window_cmd.
  repeat split; try (intros ->; reflexivity); intros H.
  - cancel_script_text.
  - cancel_script_text.
  - cancel_script_text.
  - cbn in H. discriminate H.
  - cbn in H. discriminate H.
  - cbn in H. discriminate H.
Qed.

(** * The api-keys argument *)

Lemma prefix_refl (s : string) : prefix s s = true.
Proof.
  induction s as [|c s IH]; cbn; [reflexivity|].
  destruct (ascii_dec c c) as [_|ne]; [exact IH | now elim ne].
Qed.

Lemma concat_starts_with_head (sep x : string) (l : list string) :
  prefix x (String.concat sep (x :: l)) = true.
Proof.
  destruct l as [|y l]; cbn [String.concat]; [apply prefix_refl | apply prefix_app].
Qed.

Lemma concat_lists_every_element (sep : string) (l : list string) :
  forall x k, In k l ->
              exists pre post, String.concat sep (x :: l) = pre ++ sep ++ k ++ post.
Proof.
  induction l as [|y l IH]; intros x k Hin; [contradiction|].
  change (String.concat sep (x :: y :: l)) with (x ++ sep ++ String.concat sep (y :: l)).
  destruct Hin as [->|Hin].
  - destruct l as [|z l].
    + exists x, EmptyString. cbn [String.concat].
      clear. induction k as [|c k IHk]; cbn; [reflexivity|].
      f_equal. f_equal.
      assert (E : forall s : string, s = s ++ EmptyString)
        by (induction s as [|d s IHs]; cbn; [reflexivity | now rewrite <- IHs]).
      now rewrite <- E.
    + exists x, (sep ++ String.concat sep (z :: l)). reflexivity.
  - destruct (IH y k Hin) as (pre & post & E).
    exists (x ++ sep ++ pre), post. rewrite E.
    now rewrite !string_app_assoc.
Qed.

(** X17.  The constructor passes the content process exactly one additional
    argument; it starts with [--api-keys=desktopInfo], is exactly that when no
    key was added (the option left out or an empty list), and lists every
    added key after a [|] separator. *)
Theorem apiKeys_is_one_argument_listing_every_added_key
        (opts : WindowConstructorOptions) :
  exists arg,
    apiKeys opts = [arg] /\
    prefix "--api-keys=desktopInfo" arg = true /\
    (nullish (addApiKeys opts) [] = [] -> arg = "--api-keys=desktopInfo") /\
    (forall k, In k (nullish (addApiKeys opts) []) ->
               exists pre post, arg = pre ++ "|" ++ k ++ post).
Proof.
  unfold apiKeys. eexists. split; [reflexivity|]. split; [|split].
  - apply concat_starts_with_head.
  - intros ->. reflexivity.
  - intros k Hin. now apply concat_lists_every_element.
Qed.

Lemma apiKeys_witness :
  apiKeys (sample_options "main") = ["--api-keys=desktopInfo"] /\
  exists pre post,
    "--api-keys=desktopInfo|desktop|desktopMenuCallback" = pre ++ "|" ++ "desktop" ++ post.
Proof.
  destruct (@apiKeys_is_one_argument_listing_every_added_key
              {| showToolbar := None; adjustTitle := None; autohideMenu := None;
                 name := "main"; baseUrl := None; parent := None; opener := None;
                 allowExternalNavigate := None;
                 addApiKeys := Some ["desktop"; "desktopMenuCallback"];
                 existingWindow := None |})
    as (arg & Harg & _ & _ & Hkeys).
  split; [reflexivity|].
  inversion Harg as [Earg]. rewrite Earg. apply Hkeys. left; reflexivity.
Defined.

(** * Platform-dependent members *)

(** X18.  [avoidMoveCursorIfNecessary] does nothing on a platform other than
    [darwin]; on [darwin] it injects its one script and a rejected injection
    is logged by the promise callback.  It never throws and never changes the
    wrapper. *)
Theorem avoidMoveCursor_injects_only_on_darwin
        (env : Collaborators) (platform : string) (this : DesktopBrowserWindow) :
  let r := avoidMoveCursorIfNecessary env platform this in
  completion r = Normal tt /\
  final r = this /\
  (platform <> "darwin" -> trace r = []) /\
  (platform = "darwin" ->
   calls r = [webContents_executeJavaScript avoid_move_cursor_cmd] /\
   settled r = match executeJavaScript_settles env avoid_move_cursor_cmd with
               | Resolved => []
               | Rejected reason => [logger_logError reason]
               end).
Proof.
  cbn zeta. unfold avoidMoveCursorIfNecessary.
  destruct (platform =? "darwin") eqn:E.
  - apply String.eqb_eq in E.
    unfold executeJavaScript, promise_catch, call, ret, bind, trace. cbn.
    destruct (executeJavaScript_settles env avoid_move_cursor_cmd);
      repeat split; intros; congruence.
  - apply String.eqb_neq in E. repeat split; intros; congruence.
Qed.

Lemma avoidMoveCursor_witness :
  (let r := avoidMoveCursorIfNecessary failing_env "win32"
              (constructor (sample_options "main") "RStudio") in
   trace r = []) /\
  (let r := avoidMoveCursorIfNecessary failing_env "darwin"
              (constructor (sample_options "main") "RStudio") in
   calls r = [webContents_executeJavaScript avoid_move_cursor_cmd] /\
   settled r = [logger_logError {| message := "Script failed to execute" |}]).
Proof.
  split.
  - apply (proj1 (proj2 (proj2 (@avoidMoveCursor_injects_only_on_darwin failing_env "win32"
                                  (constructor (sample_options "main") "RStudio"))))).
    discriminate.
  - apply (proj2 (proj2 (proj2 (@avoidMoveCursor_injects_only_on_darwin failing_env "darwin"
                                  (constructor (sample_options "main") "RStudio"))))).
    reflexivity.
Defined.

(** X19.  A key press emits at most one signal, and only the close-window
    shortcut signal: it does so exactly when the platform is [darwin], the
    meta key is held and the key lower-cases to [w]; on every other platform,
    and without the meta key, no key press emits anything. *)
Theorem keyPressEvent_emits_the_close_shortcut_only_for_meta_w_on_darwin
        (platform : string) (toLowerCase : string -> string) (input : Input) :
  let emitted := keyPressEvent platform toLowerCase input in
  (emitted = [] \/ emitted = [CLOSE_WINDOW_SHORTCUT]) /\
  (emitted = [CLOSE_WINDOW_SHORTCUT] <->
   platform = "darwin" /\ meta input = true /\ toLowerCase (key input) = "w") /\
  (platform <> "darwin" \/ meta input = false -> emitted = []).
Proof.
  cbn zeta. unfold keyPressEvent.
  destruct (platform =? "darwin") eqn:Ep;
    [apply String.eqb_eq in Ep | apply String.eqb_neq in Ep];
    destruct (meta input) eqn:Em;
    (destruct (toLowerCase (key input) =? "w") eqn:Ek;
     [apply String.eqb_eq in Ek | apply String.eqb_neq in Ek]);
    cbn [andb];
    (split; [first [left; reflexivity | right; reflexivity]|]);
    (split;
     [ split;
       [ intros H; try discriminate H; auto
       | intros (H1 & H2 & H3); try reflexivity; congruence ]
     | intros [H|H]; try reflexivity; congruence ]).
Qed.

Lemma keyPressEvent_witness :
  keyPressEvent "darwin" sample_toLowerCase {| meta := true; key := "W" |}
    = ["desktop-browser-close_window_shortcut"] /\
  keyPressEvent "win32" sample_toLowerCase {| meta := true; key := "w" |} = [] /\
  keyPressEvent "darwin" sample_toLowerCase {| meta := false; key := "w" |} = [].
Proof.
  split; [|split].
  - apply (proj2 (proj1 (proj2
             (@keyPressEvent_emits_the_close_shortcut_only_for_meta_w_on_darwin
                "darwin" sample_toLowerCase {| meta := true; key := "W" |})))).
    repeat split.
  - apply (proj2 (proj2
             (@keyPressEvent_emits_the_close_shortcut_only_for_meta_w_on_darwin
                "win32" sample_toLowerCase {| meta := true; key := "w" |}))).
    left; discriminate.
  - apply (proj2 (proj2
             (@keyPressEvent_emits_the_close_shortcut_only_for_meta_w_on_darwin
                "darwin" sample_toLowerCase {| meta := false; key := "w" |}))).
    right; reflexivity.
Defined.
